(** * cvssify: parsing, validation and scoring of CVSS v3.0/3.1 vectors

    A shallow embedding of [src/models.ts], [src/parser.ts],
    [src/validator.ts] and [src/score-calculator.ts], and the properties of
    the pipeline  raw string -> parser -> validator -> score calculator.

    Modelling conventions.
    - A JavaScript string is the list of its UTF-16 code units ([jsstring]);
      [js] gives the code units of an ASCII literal.
    - A JavaScript [Map] is an association list in insertion order
      ([set] overwrites in place, or appends a new key at the end).
    - An object literal used as a table is an association list as well, and
      a property read finds the properties that the literal lists.  The
      source reads its tables at the metric codes of its fixed lists and,
      on validated maps, at legal value codes; none of them names a property
      inherited from the prototype.
    - A [throw] is a value [Error e] of the [result] type; every [throw]
      site of the source has its own constructor of [error].
    - A JavaScript [number] is an exact rational ([Q]): the decimal constants
      of the source denote the rationals they spell, and [+], [*], [/], [**]
      are exact.  [Math.round], [Math.floor] and [%] produce integers ([Z]).
      Two numbers are equal when they are the same rational ([Qeq]). *)

From Stdlib Require Import ZArith NArith QArith Qround Qminmax Lqa Lia.
From Stdlib Require Import List String Ascii Bool.
Import ListNotations.

Set Implicit Arguments.

(* ================================================================= *)
(** ** Strings *)

Definition jsstring := list N.

(** The code units of an ASCII literal. *)
Definition js (s : string) : jsstring :=
  List.map N_of_ascii (list_ascii_of_string s).

Fixpoint jseqb (a b : jsstring) : bool :=
  match a, b with
  | [], [] => true
  | x :: a', y :: b' => N.eqb x y && jseqb a' b'
  | _, _ => false
  end.

(** [s.startsWith(p)] *)
Fixpoint startsWith (p s : jsstring) : bool :=
  match p, s with
  | [], _ => true
  | x :: p', y :: s' => N.eqb x y && startsWith p' s'
  | _ :: _, [] => false
  end.

(** [s.includes(sub)] *)
Fixpoint includes (sub s : jsstring) : bool :=
  startsWith sub s ||
  match s with
  | [] => false
  | _ :: s' => includes sub s'
  end.

(** [s.split(sep)] for a separator of one code unit; the result is never
    empty, and [[].split(sep)] is the one-element array holding the empty
    string. *)
Fixpoint split (sep : N) (s : jsstring) : list jsstring :=
  match s with
  | [] => [[]]
  | c :: s' =>
      if N.eqb c sep then [] :: split sep s'
      else match split sep s' with
           | [] => [[c]]
           | piece :: pieces => (c :: piece) :: pieces
           end
  end.

(** The separators of the vector format. *)
Definition SLASH : N := 47.

Definition COLON : N := 58.

(** ECMAScript WhiteSpace and LineTerminator code units, as
    [String.prototype.trim] strips them. *)
Definition isLineTerminator (c : N) : bool :=
  existsb (N.eqb c) [10; 13; 8232; 8233]%N.

Definition isWhiteSpace (c : N) : bool :=
  isLineTerminator c ||
  existsb (N.eqb c)
    [9; 11; 12; 32; 160; 5760; 8192; 8193; 8194; 8195; 8196; 8197; 8198;
     8199; 8200; 8201; 8202; 8239; 8287; 12288; 65279]%N.

Fixpoint trimStart (s : jsstring) : jsstring :=
  match s with
  | [] => []
  | c :: s' => if isWhiteSpace c then trimStart s' else s
  end.

Definition trimEnd (s : jsstring) : jsstring := rev (trimStart (rev s)).

Definition trim (s : jsstring) : jsstring := trimEnd (trimStart s).

(** [s.substr(1)] *)
Definition substr1 (s : jsstring) : jsstring := tl s.

(** Truthiness of a possibly undefined string: [undefined] and the empty
    string are falsy. *)
Definition truthy (s : option jsstring) : bool :=
  match s with
  | Some (_ :: _) => true
  | _ => false
  end.

(* ================================================================= *)
(** ** Errors *)

(** One constructor per [throw new Error(...)] of the source, named after
    the failure it reports. *)
Inductive error : Type :=
| MissingPrefix
    (* validate: CVSS vector must start with "CVSS:" *)
| UnsupportedVersion (versionStr : option jsstring)
    (* validateVersion: [None] is the throw on a falsy version
       (Invalid CVSS string. Example: ...), [Some v] is
       Unsupported CVSS version: v *)
| MalformedVector
    (* validate and validateVector: Invalid CVSS string. Example: ... *)
| InvalidMetricSegment (segment : jsstring)
    (* parseMetrics: Invalid metric: "segment" *)
| DuplicateMetric (key value : jsstring)
    (* parseMetricsAsMap: Duplicated metric: "key:value" *)
| MissingMandatoryMetric (metric : jsstring)
    (* checkMandatoryMetrics: Missing mandatory CVSS metric ... *)
| UnknownMetric (key : jsstring)
    (* checkUnknownMetrics: Unknown CVSS metric "key" *)
| InvalidMetricValue (metric value : jsstring)
    (* checkMetricsValues: Invalid value for CVSS metric ... *)
| UnknownScopeValue (value : jsstring)
    (* getPrivilegesRequiredNumericValue: Unknown Scope value *)
| UnknownPrivilegesRequiredValue (value : jsstring)
    (* getPrivilegesRequiredNumericValue: Unknown PrivilegesRequired value *)
| MissingMetric (metric : jsstring)
    (* getMetricValue: Missing metric *)
| InternalScoreTableError (metric : jsstring)
    (* getMetricNumericValue: Internal error. Missing metric score *)
| UnknownMetricValue (value : jsstring)
    (* getMetricNumericValue: Unknown metric value *)
| MissingModifiedMetric (metric : jsstring)
    (* populateEnvironmentalMetricDefaults: Missing modified metric for *)
| VersionNotFound
    (* calculateEnvironmentalResult: Version not found *)
| TypeError.
    (* a property read on undefined, raised by the runtime *)

Inductive result (A : Type) : Type :=
| OK (a : A)
| Error (e : error).

Arguments OK {A} a.
Arguments Error {A} e.

Definition bind {A B : Type} (c : result A) (k : A -> result B) : result B :=
  match c with
  | OK a => k a
  | Error e => Error e
  end.

Notation "'let*' x ':=' c 'in' k" := (bind c (fun x => k))
  (at level 10, x pattern, c at level 100, k at level 200).

Notation "c ';;;' k" := (bind c (fun _ => k))
  (at level 61, right associativity).

(* ================================================================= *)
(** ** Maps and objects keyed by strings *)

Section Assoc.
Variable V : Type.

(** An object or a [Map] with string keys, in insertion order. *)
Definition assoc := list (jsstring * V).

(** [m.get(k)], or the property read [m[k]]; [None] is undefined. *)
Fixpoint get (k : jsstring) (m : assoc) : option V :=
  match m with
  | [] => None
  | (k', v) :: m' => if jseqb k k' then Some v else get k m'
  end.

(** [m.has(k)] *)
Definition has (k : jsstring) (m : assoc) : bool :=
  match get k m with
  | Some _ => true
  | None => false
  end.

(** [m.set(k, v)]: the value of a present key is replaced in place, a new
    key goes to the end. *)
Fixpoint set (k : jsstring) (v : V) (m : assoc) : assoc :=
  match m with
  | [] => [(k, v)]
  | (k', v') :: m' =>
      if jseqb k k' then (k, v) :: m' else (k', v') :: set k v m'
  end.

(** [[...m.keys()]] *)
Definition keys (m : assoc) : list jsstring := List.map fst m.

(** Object spread [{...a, ...b}]: the properties of [b] override. *)
Definition spread (a b : assoc) : assoc :=
  fold_left (fun acc kv => set (fst kv) (snd kv) acc) b a.
End Assoc.

Definition MetricsMap := assoc jsstring.

(** [array.includes(x)] on an array of strings. *)
Definition arr_includes (x : jsstring) (l : list jsstring) : bool :=
  existsb (jseqb x) l.

(* ================================================================= *)
(** ** models.ts *)

Module BaseMetric.
Definition ATTACK_VECTOR := js "AV".
Definition ATTACK_COMPLEXITY := js "AC".
Definition PRIVILEGES_REQUIRED := js "PR".
Definition USER_INTERACTION := js "UI".
Definition SCOPE := js "S".
Definition CONFIDENTIALITY := js "C".
Definition INTEGRITY := js "I".
Definition AVAILABILITY := js "A".
End BaseMetric.

Module TemporalMetric.
Definition EXPLOIT_CODE_MATURITY := js "E".
Definition REMEDIATION_LEVEL := js "RL".
Definition REPORT_CONFIDENCE := js "RC".
End TemporalMetric.

Module EnvironmentalMetric.
Definition CONFIDENTIALITY_REQUIREMENT := js "CR".
Definition INTEGRITY_REQUIREMENT := js "IR".
Definition AVAILABILITY_REQUIREMENT := js "AR".
Definition MODIFIED_ATTACK_VECTOR := js "MAV".
Definition MODIFIED_ATTACK_COMPLEXITY := js "MAC".
Definition MODIFIED_PRIVILEGES_REQUIRED := js "MPR".
Definition MODIFIED_USER_INTERACTION := js "MUI".
Definition MODIFIED_SCOPE := js "MS".
Definition MODIFIED_CONFIDENTIALITY := js "MC".
Definition MODIFIED_INTEGRITY := js "MI".
Definition MODIFIED_AVAILABILITY := js "MA".
End EnvironmentalMetric.

Definition baseMetrics : list jsstring :=
  [ BaseMetric.ATTACK_VECTOR;
    BaseMetric.ATTACK_COMPLEXITY;
    BaseMetric.PRIVILEGES_REQUIRED;
    BaseMetric.USER_INTERACTION;
    BaseMetric.SCOPE;
    BaseMetric.CONFIDENTIALITY;
    BaseMetric.INTEGRITY;
    BaseMetric.AVAILABILITY ].

Definition temporalMetrics : list jsstring :=
  [ TemporalMetric.EXPLOIT_CODE_MATURITY;
    TemporalMetric.REMEDIATION_LEVEL;
    TemporalMetric.REPORT_CONFIDENCE ].

Definition environmentalMetrics : list jsstring :=
  [ EnvironmentalMetric.AVAILABILITY_REQUIREMENT;
    EnvironmentalMetric.CONFIDENTIALITY_REQUIREMENT;
    EnvironmentalMetric.INTEGRITY_REQUIREMENT;
    EnvironmentalMetric.MODIFIED_ATTACK_VECTOR;
    EnvironmentalMetric.MODIFIED_ATTACK_COMPLEXITY;
    EnvironmentalMetric.MODIFIED_PRIVILEGES_REQUIRED;
    EnvironmentalMetric.MODIFIED_USER_INTERACTION;
    EnvironmentalMetric.MODIFIED_SCOPE;
    EnvironmentalMetric.MODIFIED_CONFIDENTIALITY;
    EnvironmentalMetric.MODIFIED_INTEGRITY;
    EnvironmentalMetric.MODIFIED_AVAILABILITY ].

(** An array literal of one-letter value codes. *)
Definition codes (l : list string) : list jsstring := List.map js l.

Definition baseMetricValues : assoc (list jsstring) :=
  [ (BaseMetric.ATTACK_VECTOR, codes ["N"; "A"; "L"; "P"]);
    (BaseMetric.ATTACK_COMPLEXITY, codes ["L"; "H"]);
    (BaseMetric.PRIVILEGES_REQUIRED, codes ["N"; "L"; "H"]);
    (BaseMetric.USER_INTERACTION, codes ["N"; "R"]);
    (BaseMetric.SCOPE, codes ["U"; "C"]);
    (BaseMetric.CONFIDENTIALITY, codes ["N"; "L"; "H"]);
    (BaseMetric.INTEGRITY, codes ["N"; "L"; "H"]);
    (BaseMetric.AVAILABILITY, codes ["N"; "L"; "H"]) ]%string.

Definition temporalMetricValues : assoc (list jsstring) :=
  [ (TemporalMetric.EXPLOIT_CODE_MATURITY, codes ["X"; "H"; "F"; "P"; "U"]);
    (TemporalMetric.REMEDIATION_LEVEL, codes ["X"; "U"; "W"; "T"; "O"]);
    (TemporalMetric.REPORT_CONFIDENCE, codes ["X"; "C"; "R"; "U"]) ]%string.

Definition environmentalMetricValues : assoc (list jsstring) :=
  [ (EnvironmentalMetric.CONFIDENTIALITY_REQUIREMENT,
       codes ["X"; "H"; "M"; "L"]);
    (EnvironmentalMetric.INTEGRITY_REQUIREMENT, codes ["X"; "H"; "M"; "L"]);
    (EnvironmentalMetric.AVAILABILITY_REQUIREMENT,
       codes ["X"; "H"; "M"; "L"]);
    (EnvironmentalMetric.MODIFIED_ATTACK_VECTOR,
       codes ["X"; "N"; "A"; "L"; "P"]);
    (EnvironmentalMetric.MODIFIED_ATTACK_COMPLEXITY, codes ["X"; "L"; "H"]);
    (EnvironmentalMetric.MODIFIED_PRIVILEGES_REQUIRED,
       codes ["X"; "N"; "L"; "H"]);
    (EnvironmentalMetric.MODIFIED_USER_INTERACTION, codes ["X"; "N"; "R"]);
    (EnvironmentalMetric.MODIFIED_SCOPE, codes ["X"; "U"; "C"]);
    (EnvironmentalMetric.MODIFIED_CONFIDENTIALITY,
       codes ["X"; "N"; "L"; "H"]);
    (EnvironmentalMetric.MODIFIED_INTEGRITY, codes ["X"; "N"; "L"; "H"]);
    (EnvironmentalMetric.MODIFIED_AVAILABILITY,
       codes ["X"; "N"; "L"; "H"]) ]%string.

(* ================================================================= *)
(** ** parser.ts *)

(** The class of decimal digits of the regular expression. *)
Definition isDigit (c : N) : bool := (48 <=? c)%N && (c <=? 57)%N.

(** [VERSION_REGEX] reads: start of input, the literal CVSS and a colon, a
    first group made of a digit optionally followed by a dot and a digit, an
    optional second group made of any number of code units other than line
    terminators, end of input.

    [regex_rest r] is the optional second group and the end of input on
    the remaining input [r].  An iteration of an optional group that matches
    the empty string is discarded, so on an empty remainder the second
    group is left undefined. *)
Definition regex_rest (r : jsstring) : option (option jsstring) :=
  if forallb (fun c => negb (isLineTerminator c)) r
  then Some (match r with [] => None | _ :: _ => Some r end)
  else None.

(** The ways the first group matches after a first digit [d], in the order
    the backtracking matcher tries them: the greedy one first. *)
Definition version_alternatives (d : N) (r : jsstring)
  : list (jsstring * jsstring) :=
  match r with
  | dot :: d2 :: r2 =>
      if N.eqb dot 46 && isDigit d2
      then [([d; dot; d2], r2); ([d], r)]
      else [([d], r)]
  | _ => [([d], r)]
  end.

(** The first alternative on which the rest of the expression matches. *)
Fixpoint first_match (alts : list (jsstring * jsstring))
  : option (jsstring * option jsstring) :=
  match alts with
  | [] => None
  | (version, r) :: alts' =>
      match regex_rest r with
      | Some group2 => Some (version, group2)
      | None => first_match alts'
      end
  end.

(** What follows the literal prefix [p] in [s], if [s] starts with it. *)
Fixpoint strip_prefix (p s : jsstring) : option jsstring :=
  match p, s with
  | [], _ => Some s
  | x :: p', y :: s' => if N.eqb x y then strip_prefix p' s' else None
  | _ :: _, [] => None
  end.

(** [VERSION_REGEX.exec(cvssStr)]: the two capture groups of the match, if
    there is one. *)
Definition VERSION_REGEX_exec (cvssStr : jsstring)
  : option (jsstring * option jsstring) :=
  match strip_prefix (js "CVSS:") cvssStr with
  | Some (d :: r) =>
      if isDigit d then first_match (version_alternatives d r) else None
  | _ => None
  end.

Definition parseVersion (cvssStr : jsstring) : option jsstring :=
  match VERSION_REGEX_exec cvssStr with
  | Some (version, _) => Some version
  | None => None
  end.

Definition parseVector (cvssStr : jsstring) : option jsstring :=
  match VERSION_REGEX_exec cvssStr with
  | Some (_, Some group2) => Some (trim (substr1 group2))
  | _ => None
  end.

Record KeyValue : Type := mkKeyValue { key : jsstring; value : jsstring }.

(** The body of the [map] callback of [parseMetrics]:
    [const [key, value] = metric.split(":")], then the truthiness test. *)
Definition parseMetric (metric : jsstring) : result KeyValue :=
  match split COLON metric with
  | k :: v :: _ =>
      if truthy (Some k) && truthy (Some v)
      then OK (mkKeyValue k v)
      else Error (InvalidMetricSegment metric)
  | _ => Error (InvalidMetricSegment metric)
  end.

(** [array.map(f)] with a callback that may throw. *)
Fixpoint mapM {A B : Type} (f : A -> result B) (l : list A)
  : result (list B) :=
  match l with
  | [] => OK []
  | a :: l' =>
      let* b := f a in
      let* bs := mapM f l' in
      OK (b :: bs)
  end.

Definition parseMetrics (vectorStr : jsstring) : result (list KeyValue) :=
  mapM parseMetric (split SLASH vectorStr).

(** [array.reduce(f, init)] with a callback that may throw. *)
Fixpoint reduceM {A B : Type} (f : B -> A -> result B) (l : list A) (init : B)
  : result B :=
  match l with
  | [] => OK init
  | a :: l' => let* acc := f init a in reduceM f l' acc
  end.

(** The argument of [parseMetrics] is [parseVector(cvssStr) || ""]. *)
Definition parseMetricsAsMap (cvssStr : jsstring) : result MetricsMap :=
  let* metrics :=
    parseMetrics (match parseVector cvssStr with
                  | Some (c :: v) => c :: v
                  | _ => []
                  end) in
  reduceM
    (fun (res : MetricsMap) (metric : KeyValue) =>
       if has (key metric) res
       then Error (DuplicateMetric (key metric) (value metric))
       else OK (set (key metric) (value metric) res))
    metrics [].

(* ================================================================= *)
(** ** validator.ts *)

(** A [for ... of] loop whose body may throw. *)
Fixpoint forM_ {A : Type} (f : A -> result unit) (l : list A) : result unit :=
  match l with
  | [] => OK tt
  | a :: l' => f a ;;; forM_ f l'
  end.

(** [!versionStr] holds of undefined and of the empty string. *)
Definition validateVersion (versionStr : option jsstring) : result unit :=
  match versionStr with
  | Some (c :: v) =>
      if negb (jseqb (c :: v) (js "3.0")) && negb (jseqb (c :: v) (js "3.1"))
      then Error (UnsupportedVersion (Some (c :: v)))
      else OK tt
  | _ => Error (UnsupportedVersion None)
  end.

(** [!vectorStr || vectorStr.includes("//")] *)
Definition validateVector (vectorStr : option jsstring) : result unit :=
  match vectorStr with
  | Some (c :: v) =>
      if includes (js "//") (c :: v) then Error MalformedVector else OK tt
  | _ => Error MalformedVector
  end.

(** [knownMetrics] is an optional parameter; an array is truthy, so the
    default list is used only when the argument is left out. *)
Definition checkUnknownMetrics (metricsMap : MetricsMap)
  (knownMetrics : option (list jsstring)) : result unit :=
  let allKnownMetrics :=
    match knownMetrics with
    | Some l => l
    | None => baseMetrics ++ temporalMetrics ++ environmentalMetrics
    end in
  forM_
    (fun userMetric =>
       if negb (arr_includes userMetric allKnownMetrics)
       then Error (UnknownMetric userMetric)
       else OK tt)
    (keys metricsMap).

Definition checkMandatoryMetrics (metricsMap : MetricsMap)
  (metrics : list jsstring) : result unit :=
  forM_
    (fun metric =>
       if negb (has metric metricsMap)
       then Error (MissingMandatoryMetric metric)
       else OK tt)
    metrics.

(** A falsy [userValue] (an absent metric, or the empty string) is skipped
    by [continue]; [metricsValues[metric]] is read only after that. *)
Definition checkMetricsValues (metricsMap : MetricsMap)
  (metrics : list jsstring) (metricsValues : assoc (list jsstring))
  : result unit :=
  forM_
    (fun metric =>
       let userValue := get metric metricsMap in
       match userValue with
       | Some (c :: v) =>
           match get metric metricsValues with
           | Some allowed =>
               if negb (arr_includes (c :: v) allowed)
               then Error (InvalidMetricValue metric (c :: v))
               else OK tt
           | None => Error TypeError
           end
       | _ => OK tt
       end)
    metrics.

Record ValidationResult : Type := mkValidationResult {
  isTemporal : bool;
  isEnvironmental : bool;
  metricsMap : MetricsMap;
  versionStr : option jsstring
}.

(** The two constants that [validate] builds by spreading the tables. *)
Definition allKnownMetrics : list jsstring :=
  baseMetrics ++ temporalMetrics ++ environmentalMetrics.

Definition allKnownMetricsValues : assoc (list jsstring) :=
  spread (spread (spread [] baseMetricValues) temporalMetricValues)
    environmentalMetricValues.

Definition validate (cvssStr : jsstring) : result ValidationResult :=
  if negb (startsWith (js "CVSS:") cvssStr) then Error MissingPrefix
  else
    let versionStr := parseVersion cvssStr in
    validateVersion versionStr ;;;
    let vectorStr := parseVector cvssStr in
    (if negb (truthy vectorStr) then Error MalformedVector else OK tt) ;;;
    validateVector vectorStr ;;;
    let* metricsMap := parseMetricsAsMap cvssStr in
    checkMandatoryMetrics metricsMap baseMetrics ;;;
    checkUnknownMetrics metricsMap (Some allKnownMetrics) ;;;
    checkMetricsValues metricsMap allKnownMetrics allKnownMetricsValues ;;;
    let isTemporal :=
      existsb (fun metric => arr_includes metric temporalMetrics)
        (keys metricsMap) in
    let isEnvironmental :=
      existsb (fun metric => arr_includes metric environmentalMetrics)
        (keys metricsMap) in
    OK (mkValidationResult isTemporal isEnvironmental metricsMap versionStr).

(* ================================================================= *)
(** ** score-calculator.ts *)

Open Scope Q_scope.

(** An object literal from one-letter value codes to numbers. *)
Definition weights (l : list (string * Q)) : assoc Q :=
  List.map (fun p => (js (fst p), snd p)) l.

(** [table[k]] for a table of objects-or-null: undefined and null are both
    falsy, and both are [None] here. *)
Definition entry (V : Type) (k : jsstring) (table : assoc (option V))
  : option V :=
  match get k table with
  | Some o => o
  | None => None
  end.

Definition baseMetricValueScores : assoc (option (assoc Q)) :=
  [ (BaseMetric.ATTACK_VECTOR,
       Some (weights [("N", 0.85); ("A", 0.62); ("L", 0.55); ("P", 0.2)]));
    (BaseMetric.ATTACK_COMPLEXITY, Some (weights [("L", 0.77); ("H", 0.44)]));
    (BaseMetric.PRIVILEGES_REQUIRED, None);
    (BaseMetric.USER_INTERACTION, Some (weights [("N", 0.85); ("R", 0.62)]));
    (BaseMetric.SCOPE, Some (weights [("U", 0); ("C", 0)]));
    (BaseMetric.CONFIDENTIALITY,
       Some (weights [("N", 0); ("L", 0.22); ("H", 0.56)]));
    (BaseMetric.INTEGRITY,
       Some (weights [("N", 0); ("L", 0.22); ("H", 0.56)]));
    (BaseMetric.AVAILABILITY,
       Some (weights [("N", 0); ("L", 0.22); ("H", 0.56)])) ]%string.

Definition temporalMetricValueScores : assoc (option (assoc Q)) :=
  [ (TemporalMetric.EXPLOIT_CODE_MATURITY,
       Some (weights
               [("X", 1); ("U", 0.91); ("F", 0.97); ("P", 0.94); ("H", 1)]));
    (TemporalMetric.REMEDIATION_LEVEL,
       Some (weights
               [("X", 1); ("O", 0.95); ("T", 0.96); ("W", 0.97); ("U", 1)]));
    (TemporalMetric.REPORT_CONFIDENCE,
       Some (weights [("X", 1); ("U", 0.92); ("R", 0.96); ("C", 1)]))
  ]%string.

Definition environmentalMetricValueScores : assoc (option (assoc Q)) :=
  [ (EnvironmentalMetric.CONFIDENTIALITY_REQUIREMENT,
       Some (weights [("M", 1); ("L", 0.5); ("H", 1.5); ("X", 1)]));
    (EnvironmentalMetric.INTEGRITY_REQUIREMENT,
       Some (weights [("M", 1); ("L", 0.5); ("H", 1.5); ("X", 1)]));
    (EnvironmentalMetric.AVAILABILITY_REQUIREMENT,
       Some (weights [("M", 1); ("L", 0.5); ("H", 1.5); ("X", 1)]));
    (EnvironmentalMetric.MODIFIED_ATTACK_VECTOR,
       entry BaseMetric.ATTACK_VECTOR baseMetricValueScores);
    (EnvironmentalMetric.MODIFIED_ATTACK_COMPLEXITY,
       entry BaseMetric.ATTACK_COMPLEXITY baseMetricValueScores);
    (EnvironmentalMetric.MODIFIED_PRIVILEGES_REQUIRED, None);
    (EnvironmentalMetric.MODIFIED_USER_INTERACTION,
       entry BaseMetric.USER_INTERACTION baseMetricValueScores);
    (EnvironmentalMetric.MODIFIED_SCOPE,
       entry BaseMetric.SCOPE baseMetricValueScores);
    (EnvironmentalMetric.MODIFIED_CONFIDENTIALITY,
       entry BaseMetric.CONFIDENTIALITY baseMetricValueScores);
    (EnvironmentalMetric.MODIFIED_INTEGRITY,
       entry BaseMetric.INTEGRITY baseMetricValueScores);
    (EnvironmentalMetric.MODIFIED_AVAILABILITY,
       entry BaseMetric.AVAILABILITY baseMetricValueScores) ]%string.

Definition getPrivilegesRequiredNumericValue (value scopeValue : jsstring)
  : result Q :=
  if negb (jseqb scopeValue (js "U")) && negb (jseqb scopeValue (js "C"))
  then Error (UnknownScopeValue scopeValue)
  else if jseqb value (js "N") then OK 0.85
  else if jseqb value (js "L")
       then OK (if jseqb scopeValue (js "U") then 0.62 else 0.68)
  else if jseqb value (js "H")
       then OK (if jseqb scopeValue (js "U") then 0.27 else 0.5)
  else Error (UnknownPrivilegesRequiredValue value).

(** [has] then [get]: the value of a key that is present. *)
Definition getMetricValue (metric : jsstring) (metricsMap : MetricsMap)
  : result jsstring :=
  match get metric metricsMap with
  | Some v => OK v
  | None => Error (MissingMetric metric)
  end.

(** The three score tables spread into one object. *)
Definition allMetricValueScores : assoc (option (assoc Q)) :=
  spread (spread (spread [] baseMetricValueScores) temporalMetricValueScores)
    environmentalMetricValueScores.

(** The first argument of the inner [getMetricValue] call is
    [metric || TemporalMetric || EnvironmentalMetric]: the metric itself
    unless it is the empty string, in which case an enum object is looked
    up, which is the key of no entry. *)
Definition getMetricNumericValue (metric : jsstring) (metricsMap : MetricsMap)
  : result Q :=
  let* value :=
    match metric with
    | [] => Error (MissingMetric [])
    | _ :: _ => getMetricValue metric metricsMap
    end in
  if jseqb metric BaseMetric.PRIVILEGES_REQUIRED then
    let* scopeValue := getMetricValue BaseMetric.SCOPE metricsMap in
    getPrivilegesRequiredNumericValue value scopeValue
  else if jseqb metric EnvironmentalMetric.MODIFIED_PRIVILEGES_REQUIRED then
    let* scopeValue :=
      getMetricValue EnvironmentalMetric.MODIFIED_SCOPE metricsMap in
    getPrivilegesRequiredNumericValue value scopeValue
  else
    match entry metric allMetricValueScores with
    | None => Error (InternalScoreTableError metric)
    | Some score =>
        match get value score with
        | None => Error (UnknownMetricValue value)
        | Some numericValue => OK numericValue
        end
    end.

Definition calculateIss (metricsMap : MetricsMap) : result Q :=
  let* confidentiality :=
    getMetricNumericValue BaseMetric.CONFIDENTIALITY metricsMap in
  let* integrity := getMetricNumericValue BaseMetric.INTEGRITY metricsMap in
  let* availability :=
    getMetricNumericValue BaseMetric.AVAILABILITY metricsMap in
  OK (1 - (1 - confidentiality) * (1 - integrity) * (1 - availability)).

Definition calculateMiss (metricsMap : MetricsMap) : result Q :=
  let* rConfidentiality :=
    getMetricNumericValue EnvironmentalMetric.CONFIDENTIALITY_REQUIREMENT
      metricsMap in
  let* mConfidentiality :=
    getMetricNumericValue EnvironmentalMetric.MODIFIED_CONFIDENTIALITY
      metricsMap in
  let* rIntegrity :=
    getMetricNumericValue EnvironmentalMetric.INTEGRITY_REQUIREMENT
      metricsMap in
  let* mIntegrity :=
    getMetricNumericValue EnvironmentalMetric.MODIFIED_INTEGRITY metricsMap in
  let* rAvailability :=
    getMetricNumericValue EnvironmentalMetric.AVAILABILITY_REQUIREMENT
      metricsMap in
  let* mAvailability :=
    getMetricNumericValue EnvironmentalMetric.MODIFIED_AVAILABILITY
      metricsMap in
  OK (Qmin
        (1 - (1 - rConfidentiality * mConfidentiality)
             * (1 - rIntegrity * mIntegrity)
             * (1 - rAvailability * mAvailability))
        0.915).

(** [metricsMap.get(k) === "v"] *)
Definition get_is (k : jsstring) (v : string) (metricsMap : MetricsMap)
  : bool :=
  match get k metricsMap with
  | Some x => jseqb x (js v)
  | None => false
  end.

Definition calculateImpact (metricsMap : MetricsMap) (iss : Q) : Q :=
  if get_is BaseMetric.SCOPE "U" metricsMap
  then 6.42 * iss
  else 7.52 * (iss - 0.029) - 3.25 * (iss - 0.02) ^ 15.

Definition calculateModifiedImpact (metricsMap : MetricsMap) (miss : Q)
  (versionStr : option jsstring) : Q :=
  let is30 :=
    match versionStr with
    | Some v => jseqb v (js "3.0")
    | None => false
    end in
  if get_is EnvironmentalMetric.MODIFIED_SCOPE "U" metricsMap
  then 6.42 * miss
  else 7.52 * (miss - 0.029)
       - 3.25 * (miss * (if is30 then 1 else 0.9731) - 0.02)
                ^ (if is30 then 15 else 13).

Definition calculateExploitability (metricsMap : MetricsMap) : result Q :=
  let* av := getMetricNumericValue BaseMetric.ATTACK_VECTOR metricsMap in
  let* ac := getMetricNumericValue BaseMetric.ATTACK_COMPLEXITY metricsMap in
  let* pr :=
    getMetricNumericValue BaseMetric.PRIVILEGES_REQUIRED metricsMap in
  let* ui := getMetricNumericValue BaseMetric.USER_INTERACTION metricsMap in
  OK (8.22 * av * ac * pr * ui).

Definition calculateModifiedExploitability (metricsMap : MetricsMap)
  : result Q :=
  let* mav :=
    getMetricNumericValue EnvironmentalMetric.MODIFIED_ATTACK_VECTOR
      metricsMap in
  let* mac :=
    getMetricNumericValue EnvironmentalMetric.MODIFIED_ATTACK_COMPLEXITY
      metricsMap in
  let* mpr :=
    getMetricNumericValue EnvironmentalMetric.MODIFIED_PRIVILEGES_REQUIRED
      metricsMap in
  let* mui :=
    getMetricNumericValue EnvironmentalMetric.MODIFIED_USER_INTERACTION
      metricsMap in
  OK (8.22 * mav * mac * mpr * mui).

(** [Math.round]: the nearest integer, halves towards plus infinity. *)
Definition Math_round (x : Q) : Z := Qfloor (x + 0.5).

(** [Math.floor] *)
Definition Math_floor (x : Q) : Z := Qfloor x.

Definition roundUp (input : Q) : Q :=
  let intInput := Math_round (input * 100000) in
  if (Z.rem intInput 10000 =? 0)%Z
  then inject_Z intInput / 100000
  else inject_Z (Math_floor (inject_Z intInput / 10000) + 1) / 10.

Definition modifiedMetricsMap : assoc jsstring :=
  [ (js "MAV", BaseMetric.ATTACK_VECTOR);
    (js "MAC", BaseMetric.ATTACK_COMPLEXITY);
    (js "MPR", BaseMetric.PRIVILEGES_REQUIRED);
    (js "MUI", BaseMetric.USER_INTERACTION);
    (js "MS", BaseMetric.SCOPE);
    (js "MC", BaseMetric.CONFIDENTIALITY);
    (js "MI", BaseMetric.INTEGRITY);
    (js "MA", BaseMetric.AVAILABILITY) ].

Definition populateTemporalMetricDefaults (metricsMap : MetricsMap)
  : MetricsMap :=
  fold_left
    (fun (m : MetricsMap) metric =>
       if negb (has metric m) then set metric (js "X") m else m)
    temporalMetrics metricsMap.

(** One iteration of the loop of [populateEnvironmentalMetricDefaults]. *)
Definition populateEnvironmentalMetricDefault (m : MetricsMap)
  (metric : jsstring) : result MetricsMap :=
  let m1 := if negb (has metric m) then set metric (js "X") m else m in
  if get_is metric "X" m1 then
    let modifiedMetric := get metric modifiedMetricsMap in
    match modifiedMetric with
    | Some (c :: b) =>
        OK (set metric
              (match get (c :: b) m1 with
               | Some v => v
               | None => js "X"
               end)
              m1)
    | _ => Error (MissingModifiedMetric metric)
    end
  else OK m1.

Definition populateEnvironmentalMetricDefaults (metricsMap : MetricsMap)
  : result MetricsMap :=
  reduceM populateEnvironmentalMetricDefault environmentalMetrics metricsMap.

(** The last field is [metricsMap] in the source; the name is taken by the
    field of [ValidationResult]. *)
Record ScoreResult : Type := mkScoreResult {
  score : Q;
  impact : Q;
  exploitability : Q;
  scoredMetricsMap : MetricsMap
}.

(** [impact <= 0] *)
Definition nonpositive (x : Q) : bool := Qle_bool x 0.

Definition calculateBaseResult (cvssString : jsstring) : result ScoreResult :=
  let* v := validate cvssString in
  let metricsMap := metricsMap v in
  let* iss := calculateIss metricsMap in
  let impact := calculateImpact metricsMap iss in
  let* exploitability := calculateExploitability metricsMap in
  let scopeUnchanged := get_is BaseMetric.SCOPE "U" metricsMap in
  let score :=
    if nonpositive impact then 0
    else if scopeUnchanged
         then roundUp (Qmin (impact + exploitability) 10)
         else roundUp (Qmin (1.08 * (impact + exploitability)) 10) in
  OK (mkScoreResult
        score
        (if nonpositive impact then 0 else roundUp impact)
        (if nonpositive impact then 0 else roundUp exploitability)
        metricsMap).

Definition calculateBaseScore (cvssString : jsstring) : result Q :=
  let* r := calculateBaseResult cvssString in
  OK (score r).

(** The product of the three Temporal weights, read in the order the
    source reads them in [calculateEnvironmentalResult], applied to
    [inner]. *)
Definition temporalProduct (inner : Q) (metricsMap : MetricsMap) : result Q :=
  let* e :=
    getMetricNumericValue TemporalMetric.EXPLOIT_CODE_MATURITY metricsMap in
  let* rl :=
    getMetricNumericValue TemporalMetric.REMEDIATION_LEVEL metricsMap in
  let* rc :=
    getMetricNumericValue TemporalMetric.REPORT_CONFIDENCE metricsMap in
  OK (inner * e * rl * rc).

Definition calculateEnvironmentalResult (cvssString : jsstring)
  : result ScoreResult :=
  let* validationResult := validate cvssString in
  let versionStr := versionStr validationResult in
  let metricsMap := metricsMap validationResult in
  let metricsMap := populateTemporalMetricDefaults metricsMap in
  let* metricsMap := populateEnvironmentalMetricDefaults metricsMap in
  let* miss := calculateMiss metricsMap in
  if negb (truthy versionStr) then Error VersionNotFound
  else
    let impact := calculateModifiedImpact metricsMap miss versionStr in
    let* exploitability := calculateModifiedExploitability metricsMap in
    let scopeUnchanged :=
      get_is EnvironmentalMetric.MODIFIED_SCOPE "U" metricsMap in
    let* score :=
      if nonpositive impact then OK 0
      else if scopeUnchanged
           then
             let* x :=
               temporalProduct
                 (roundUp (Qmin (impact + exploitability) 10)) metricsMap in
             OK (roundUp x)
           else
             let* x :=
               temporalProduct
                 (roundUp (Qmin (1.08 * (impact + exploitability)) 10))
                 metricsMap in
             OK (roundUp x) in
    OK (mkScoreResult
          score
          (if nonpositive impact then 0 else roundUp impact)
          (if nonpositive impact then 0 else roundUp exploitability)
          metricsMap).

Definition calculateEnvironmentalScore (cvssString : jsstring) : result Q :=
  let* r := calculateEnvironmentalResult cvssString in
  OK (score r).

Definition calculateTemporalResult (cvssString : jsstring)
  : result ScoreResult :=
  let* v := validate cvssString in
  let metricsMap := populateTemporalMetricDefaults (metricsMap v) in
  let* base := calculateBaseResult cvssString in
  let* rc :=
    getMetricNumericValue TemporalMetric.REPORT_CONFIDENCE metricsMap in
  let* e :=
    getMetricNumericValue TemporalMetric.EXPLOIT_CODE_MATURITY metricsMap in
  let* rl :=
    getMetricNumericValue TemporalMetric.REMEDIATION_LEVEL metricsMap in
  let tempScore := roundUp (score base * rc * e * rl) in
  OK (mkScoreResult tempScore (impact base) (exploitability base) metricsMap).

Definition calculateTemporalScore (cvssString : jsstring) : result Q :=
  let* r := calculateTemporalResult cvssString in
  OK (score r).

(* ================================================================= *)
(** * Notions used to state the properties *)

(** ** The parser *)

(** The [n]-th piece of a segment split on the colon. *)
Definition piece (n : nat) (segment : jsstring) : option jsstring :=
  nth_error (split COLON segment) n.

(** What the callback of [parseMetrics] requires of a segment: its first two
    pieces are there and are not empty. *)
Definition has_key_and_value (segment : jsstring) : bool :=
  truthy (piece 0 segment) && truthy (piece 1 segment).

Definition key_value_of (segment : jsstring) : KeyValue :=
  mkKeyValue
    (match piece 0 segment with Some k => k | None => [] end)
    (match piece 1 segment with Some v => v | None => [] end).

(** The requirement in the words of the specification: the segment splits
    on the colon into exactly a non-empty key and a non-empty value. *)
Definition exactly_key_and_value (segment : jsstring) : bool :=
  match split COLON segment with
  | [k; v] => truthy (Some k) && truthy (Some v)
  | _ => false
  end.

(** ** The validator *)

(** The legal values of a metric, read in the merged table that [validate]
    builds. *)
Definition allowedValues (metric : jsstring) : list jsstring :=
  match get metric allKnownMetricsValues with
  | Some l => l
  | None => []
  end.

(** What [validate] establishes of the map it returns. *)
Record Validated (m : MetricsMap) : Prop := mkValidated {
  validated_mandatory : forall b, In b baseMetrics -> has b m = true;
  validated_known : forall k, has k m = true -> In k allKnownMetrics;
  validated_values : forall k v, get k m = Some v -> In v (allowedValues k)
}.

(** ** The score calculator *)

(** [roundUp] in the words of the specification: multiply by 100000, round
    to the nearest integer; if that integer is divisible by 10000 the result
    is that/100000, else it is floor(that/10000 + 1)/10. *)
Definition roundUp_spec (x : Q) : Q :=
  let that := Math_round (x * 100000) in
  if (that mod 10000 =? 0)%Z
  then inject_Z that / 100000
  else inject_Z (Qfloor (inject_Z that / 10000 + 1)) / 10.

(** The number of tenths that [roundUp] returns for [i] hundred-thousandths:
    [i / 10000] rounded towards plus infinity. *)
Definition tenths (i : Z) : Z :=
  if (Z.rem i 10000 =? 0)%Z then (i / 10000)%Z else (i / 10000 + 1)%Z.

(** An integer multiple of one tenth. *)
Definition is_tenth (q : Q) : Prop := exists k : Z, q == inject_Z k / 10.

(** A score: a multiple of one tenth between 0 and 10. *)
Definition is_score (q : Q) : Prop := 0 <= q /\ q <= 10 /\ is_tenth q.

(** The weight that the merged score table gives to a value of a metric. *)
Definition tableWeight (metric value : jsstring) : option Q :=
  match entry metric allMetricValueScores with
  | Some score => get value score
  | None => None
  end.

(** Every listed value of every listed metric has a weight between [lo] and
    [hi] in the merged score table. *)
Definition weights_within (lo hi : Q) (metrics : list jsstring)
  (values : jsstring -> list jsstring) : bool :=
  forallb
    (fun metric =>
       forallb
         (fun v =>
            match tableWeight metric v with
            | Some w => Qle_bool lo w && Qle_bool w hi
            | None => false
            end)
         (values metric))
    metrics.

(** The Base score of an accepted vector, as [calculateBaseResult] assembles
    it. *)
Definition baseScoreOf (m : MetricsMap) (iss e : Q) : Q :=
  let impact := calculateImpact m iss in
  if nonpositive impact then 0
  else if get_is BaseMetric.SCOPE "U" m
       then roundUp (Qmin (impact + e) 10)
       else roundUp (Qmin (1.08 * (impact + e)) 10).

(** ** Default population *)

(** A metric that is absent from the map or has the value X. *)
Definition unset (metric : jsstring) (m : MetricsMap) : bool :=
  match get metric m with
  | None => true
  | Some v => jseqb v (js "X")
  end.

(** The value that a Modified metric is to hold after the default
    population: its own value if it has one other than X, otherwise the
    value of its Base counterpart (X if that one is absent too). *)
Definition resolved (metric : jsstring) (m : MetricsMap) : jsstring :=
  if unset metric m
  then match get metric modifiedMetricsMap with
       | Some b => match get b m with Some v => v | None => js "X" end
       | None => js "X"
       end
  else match get metric m with Some v => v | None => js "X" end.

(** The three Requirement metrics and the eight Modified metrics, in the
    order of [environmentalMetrics]. *)
Definition requirementMetrics : list jsstring := firstn 3 environmentalMetrics.

Definition modifiedMetrics : list jsstring := skipn 3 environmentalMetrics.

(** A Modified metric: it has a counterpart, which is not a Modified metric
    itself. *)
Definition is_modified (metric : jsstring) : Prop :=
  exists c b, get metric modifiedMetricsMap = Some (c :: b) /\
              get (c :: b) modifiedMetricsMap = None.

(** ** Statements about results *)

(** The call returns a number equal to [x]. *)
Definition returns (r : result Q) (x : Q) : Prop :=
  match r with
  | OK q => q == x
  | Error _ => False
  end.

(** ** Vectors used as examples *)

Definition vector_low := js "CVSS:3.0/AV:A/AC:H/PR:H/UI:R/S:U/C:N/I:N/A:L".

Definition vector_unchanged :=
  js "CVSS:3.1/AV:N/AC:L/PR:N/UI:N/S:U/C:H/I:H/A:H".

Definition vector_changed :=
  js "CVSS:3.1/AV:N/AC:L/PR:N/UI:N/S:C/C:H/I:H/A:H".

Definition vector_temporal :=
  js "CVSS:3.1/AV:N/AC:L/PR:N/UI:N/S:U/C:H/I:H/A:H/E:U/RL:O/RC:C".

Definition vector_environmental :=
  js "CVSS:3.1/AV:N/AC:L/PR:L/UI:N/S:C/C:H/I:L/A:H/CR:H/IR:M/AR:L/MS:X/MAV:L".

(** ** The checks of the validator *)

(** The checks that [validate] makes, in the words of the specification. *)
Inductive check : Type :=
| PrefixCheck      (* the input starts with CVSS: *)
| VersionCheck     (* the version token is there and is 3.0 or 3.1 *)
| VectorCheck      (* the vector body is not empty and has no // *)
| ParserCheck      (* the parser raises nothing *)
| MandatoryCheck   (* the eight Base metrics are keys of the map *)
| UnknownCheck     (* every key of the map is a known metric code *)
| ValueCheck.      (* the value of every key is legal for its metric *)

(** The fixed order of the checks. *)
Definition all_checks : list check :=
  [ PrefixCheck; VersionCheck; VectorCheck; ParserCheck; MandatoryCheck;
    UnknownCheck; ValueCheck ].

(** A condition on the parsed map, false when the parser raises. *)
Definition on_map (cvssStr : jsstring) (p : MetricsMap -> bool) : bool :=
  match parseMetricsAsMap cvssStr with
  | OK m => p m
  | Error _ => false
  end.

(** The input triggers the failure condition of a check. *)
Definition fails (cvssStr : jsstring) (c : check) : bool :=
  match c with
  | PrefixCheck => negb (startsWith (js "CVSS:") cvssStr)
  | VersionCheck =>
      match parseVersion cvssStr with
      | Some v => negb (jseqb v (js "3.0") || jseqb v (js "3.1"))
      | None => true
      end
  | VectorCheck =>
      match parseVector cvssStr with
      | Some body => jseqb body [] || includes (js "//") body
      | None => true
      end
  | ParserCheck =>
      match parseMetricsAsMap cvssStr with
      | OK _ => false
      | Error _ => true
      end
  | MandatoryCheck =>
      on_map cvssStr
        (fun m => existsb (fun b => negb (has b m)) baseMetrics)
  | UnknownCheck =>
      on_map cvssStr
        (fun m =>
           existsb (fun k => negb (arr_includes k allKnownMetrics)) (keys m))
  | ValueCheck =>
      on_map cvssStr
        (fun m =>
           existsb
             (fun k =>
                match get k m with
                | Some v => negb (arr_includes v (allowedValues k))
                | None => false
                end)
             (keys m))
  end.

(** The check that an error of [validate] reports. *)
Definition raised_by (e : error) : option check :=
  match e with
  | MissingPrefix => Some PrefixCheck
  | UnsupportedVersion _ => Some VersionCheck
  | MalformedVector => Some VectorCheck
  | InvalidMetricSegment _ => Some ParserCheck
  | DuplicateMetric _ _ => Some ParserCheck
  | MissingMandatoryMetric _ => Some MandatoryCheck
  | UnknownMetric _ => Some UnknownCheck
  | InvalidMetricValue _ _ => Some ValueCheck
  | _ => None
  end.

(** The first Base metric that is not a key of the map. *)
Definition first_absent (m : MetricsMap) : option jsstring :=
  find (fun b => negb (has b m)) baseMetrics.

(** An error of the mandatory check names the first Base metric that is
    absent from the parsed map. *)
Definition names_first_absent (cvssStr : jsstring) (e : error) : Prop :=
  match e with
  | MissingMandatoryMetric b =>
      match parseMetricsAsMap cvssStr with
      | OK m => first_absent m = Some b
      | Error _ => False
      end
  | _ => True
  end.

From Stdlib Require Import Permutation.

(* ================================================================= *)
(** * humanizer.ts *)

(** The label of a metric; the [switch] knows the eight Base metrics. *)
Definition humanizeBaseMetric (metric : jsstring) : jsstring :=
  if jseqb metric BaseMetric.ATTACK_VECTOR then js "Attack Vector"
  else if jseqb metric BaseMetric.ATTACK_COMPLEXITY
       then js "Attack Complexity"
  else if jseqb metric BaseMetric.PRIVILEGES_REQUIRED
       then js "Privileges Required"
  else if jseqb metric BaseMetric.USER_INTERACTION
       then js "User Interaction"
  else if jseqb metric BaseMetric.SCOPE then js "Scope"
  else if jseqb metric BaseMetric.CONFIDENTIALITY then js "Confidentiality"
  else if jseqb metric BaseMetric.INTEGRITY then js "Integrity"
  else if jseqb metric BaseMetric.AVAILABILITY then js "Availability"
  else js "Unknown".

(** The label of a value of a metric. *)
Definition humanizeBaseMetricValue (value metric : jsstring) : jsstring :=
  if jseqb value (js "A") then js "Adjacent"
  else if jseqb value (js "C") then js "Changed"
  else if jseqb value (js "H") then js "High"
  else if jseqb value (js "L")
       then if jseqb metric BaseMetric.ATTACK_VECTOR
            then js "Local" else js "Low"
  else if jseqb value (js "N")
       then if jseqb metric BaseMetric.ATTACK_VECTOR
            then js "Network" else js "None"
  else if jseqb value (js "P") then js "Physical"
  else if jseqb value (js "R") then js "Required"
  else if jseqb value (js "U") then js "Unchanged"
  else js "Unknown".

(** The qualitative severity rating of a score. *)
Definition humanizeScore (score : Q) : jsstring :=
  if Qle_bool score 0 then js "None"
  else if Qle_bool score 3.9 then js "Low"
  else if Qle_bool score 6.9 then js "Medium"
  else if Qle_bool score 8.9 then js "High"
  else js "Critical".

(* ================================================================= *)
(** * Notions used to state the further properties *)

(** The argument that [parseMetricsAsMap] gives to [parseMetrics]:
    [parseVector(cvssStr) || ""]. *)
Definition vectorBody (cvssStr : jsstring) : jsstring :=
  match parseVector cvssStr with
  | Some (c :: v) => c :: v
  | _ => []
  end.

(** The entry of the map that a parsed segment becomes. *)
Definition pair_of (kv : KeyValue) : jsstring * jsstring :=
  (key kv, value kv).

(** No code unit of the string is a line terminator. *)
Definition no_line_terminator (s : jsstring) : bool :=
  forallb (fun c => negb (isLineTerminator c)) s.

(** Two maps with the same value, or none, at every key: the same entries,
    whatever their order. *)
Definition same_entries (m1 m2 : MetricsMap) : Prop :=
  forall k, get k m1 = get k m2.

(** A vector and the same vector with its metrics in the reverse order. *)
Definition vector_reversed :=
  js "CVSS:3.1/MAV:L/MS:X/AR:L/IR:M/CR:H/A:H/I:L/C:H/S:C/UI:N/PR:L/AC:L/AV:N".
(* ================================================================= *)
(** * Properties *)

(* ----------------------------------------------------------------- *)
(** ** Strings and maps *)

(** [jseqb] decides the equality of strings. *)
Lemma jseqb_eq (a b : jsstring) : jseqb a b = true <-> a = b.
Proof.
  revert b; induction a as [|x a IH]; intros [|y b]; simpl;
    try (split; congruence).
  rewrite andb_true_iff, N.eqb_eq, IH.
  split; [intros [-> ->]; reflexivity | intros [= -> ->]; auto].
Qed.

Lemma jseqb_refl (a : jsstring) : jseqb a a = true.
Proof. apply jseqb_eq; reflexivity. Qed.

Lemma jseqb_neq (a b : jsstring) : jseqb a b = false <-> a <> b.
Proof.
  rewrite <- jseqb_eq. destruct (jseqb a b); split; congruence.
Qed.

Lemma jseqb_sym (a b : jsstring) : jseqb a b = jseqb b a.
Proof.
  destruct (jseqb a b) eqn:E.
  - apply jseqb_eq in E; subst; symmetry; apply jseqb_refl.
  - symmetry; apply jseqb_neq; apply jseqb_neq in E; congruence.
Qed.

Lemma arr_includes_In (x : jsstring) (l : list jsstring) :
  arr_includes x l = true <-> In x l.
Proof.
  unfold arr_includes. rewrite existsb_exists. split.
  - intros [y [Hy E]]. apply jseqb_eq in E. subst; assumption.
  - intros H. exists x. split; [assumption | apply jseqb_refl].
Qed.

(** A goal about a member of one of the fixed lists of metrics, or about an
    entry of one of the fixed tables, closed by evaluation for each member. *)
Ltac for_each_member H :=
  vm_compute in H;
  repeat (destruct H as [<-|H]; [reflexivity|]);
  destruct H.

Ltac for_each_entry H :=
  vm_compute in H;
  repeat (destruct H as [[= <- <-]|H]; [reflexivity|]);
  destruct H.

Section AssocFacts.
Variable V : Type.
Implicit Types (m : assoc V) (k : jsstring).

Lemma get_set m k k' (v : V) :
  get k' (set k v m) = if jseqb k' k then Some v else get k' m.
Proof.
  induction m as [|[k0 v0] m IH]; simpl.
  - reflexivity.
  - destruct (jseqb k k0) eqn:E; simpl.
    + apply jseqb_eq in E; subst k0.
      destruct (jseqb k' k); reflexivity.
    + destruct (jseqb k' k0) eqn:E0.
      * apply jseqb_eq in E0; subst k0.
        rewrite jseqb_sym, E. reflexivity.
      * exact IH.
Qed.

Lemma has_get m k : has k m = true <-> exists v, get k m = Some v.
Proof.
  unfold has. destruct (get k m) as [v|].
  - split; [eauto | reflexivity].
  - split; [discriminate | intros [v H]; discriminate].
Qed.

Lemma has_false_get m k : has k m = false <-> get k m = None.
Proof.
  unfold has. destruct (get k m); split; congruence.
Qed.

Lemma get_In m k (v : V) : get k m = Some v -> In (k, v) m.
Proof.
  induction m as [|[k0 v0] m IH]; simpl; [discriminate|].
  destruct (jseqb k k0) eqn:E.
  - apply jseqb_eq in E; subst. intros [= ->]. left; reflexivity.
  - intros H; right; auto.
Qed.

Lemma In_set m k (v : V) (kv : jsstring * V) :
  In kv (set k v m) -> kv = (k, v) \/ In kv m.
Proof.
  induction m as [|[k0 v0] m IH]; simpl.
  - intros [H|[]]; auto.
  - destruct (jseqb k k0); simpl; intros [H|H]; auto.
    destruct (IH H); auto.
Qed.

Lemma In_keys_has m k : In k (keys m) -> has k m = true.
Proof.
  unfold keys. induction m as [|[k0 v0] m IH]; simpl; [intros []|].
  unfold has; simpl. destruct (jseqb k k0) eqn:E; [reflexivity|].
  intros [H|H]; [subst; rewrite jseqb_refl in E; discriminate|].
  apply IH, H.
Qed.

Lemma has_In_keys m k : has k m = true -> In k (keys m).
Proof.
  intros H. apply has_get in H. destruct H as [v H].
  apply get_In in H. unfold keys. apply (in_map fst) in H. exact H.
Qed.
End AssocFacts.

(* ----------------------------------------------------------------- *)
(** ** Loops and callbacks that may throw *)

(** A loop returns normally exactly when every iteration does. *)
Lemma forM__OK (A : Type) (f : A -> result unit) (l : list A) :
  forM_ f l = OK tt <-> (forall a, In a l -> f a = OK tt).
Proof.
  induction l as [|a l IH]; simpl.
  - split; [intros _ a [] | reflexivity].
  - destruct (f a) as [[]|e] eqn:E; simpl.
    + rewrite IH. split.
      * intros H b [<-|Hb]; auto.
      * intros H b Hb; auto.
    + split; [discriminate|].
      intros H. specialize (H a (or_introl eq_refl)). congruence.
Qed.

(** A loop that throws does so at the first element whose body throws. *)
Lemma forM__Error (A : Type) (f : A -> result unit) (l : list A) (e : error) :
  forM_ f l = Error e <->
  exists l1 a l2, l = l1 ++ a :: l2 /\ f a = Error e /\
                  forall b, In b l1 -> f b = OK tt.
Proof.
  induction l as [|a l IH]; simpl.
  - split; [discriminate|].
    intros (l1 & a & l2 & H & _). destruct l1; discriminate.
  - destruct (f a) as [[]|e'] eqn:E; simpl.
    + rewrite IH. split.
      * intros (l1 & b & l2 & -> & Hb & Hl1).
        exists (a :: l1), b, l2. repeat split; auto.
        intros c [<-|Hc]; auto.
      * intros (l1 & b & l2 & H & Hb & Hl1).
        destruct l1 as [|c l1]; simpl in H; injection H as <- ->.
        -- congruence.
        -- exists l1, b, l2. repeat split; auto.
           intros d Hd. apply Hl1. right; assumption.
    + split.
      * intros [= <-]. exists [], a, l. repeat split; auto. intros b [].
      * intros (l1 & b & l2 & H & Hb & Hl1).
        destruct l1 as [|c l1]; simpl in H; injection H as <- ->.
        -- congruence.
        -- specialize (Hl1 a (or_introl eq_refl)). congruence.
Qed.

Lemma forM__Error_In (A : Type) (f : A -> result unit) (l : list A)
  (e : error) :
  forM_ f l = Error e -> exists a, In a l /\ f a = Error e.
Proof.
  intros H. apply forM__Error in H.
  destruct H as (l1 & a & l2 & -> & Ha & _).
  exists a. split; [apply in_elt | assumption].
Qed.

(** A loop that throws on the elements satisfying [p] throws at the first of
    them. *)
Lemma forM__find (A : Type) (p : A -> bool) (err : A -> error)
  (l : list A) :
  forM_ (fun a => if p a then Error (err a) else OK tt) l =
  match find p l with
  | Some a => Error (err a)
  | None => OK tt
  end.
Proof.
  induction l as [|a l IH]; simpl; [reflexivity|].
  destruct (p a); simpl; [reflexivity | exact IH].
Qed.

Lemma existsb_find (A : Type) (p : A -> bool) (l : list A) :
  existsb p l = match find p l with Some _ => true | None => false end.
Proof.
  induction l as [|a l IH]; simpl; [reflexivity|].
  destruct (p a); simpl; [reflexivity | exact IH].
Qed.

Lemma find_none_forall (A : Type) (p : A -> bool) (l : list A) :
  find p l = None -> forall a, In a l -> p a = false.
Proof.
  intros H a Ha. apply (find_none _ _ H a Ha).
Qed.

(** Every element of the result of [map] comes from an element of the
    array on which the callback returned. *)
Lemma mapM_OK (A B : Type) (f : A -> result B) (l : list A) (bs : list B) :
  mapM f l = OK bs ->
  forall b, In b bs -> exists a, In a l /\ f a = OK b.
Proof.
  revert bs; induction l as [|a l IH]; simpl; intros bs.
  - intros [= <-] b [].
  - destruct (f a) as [b0|] eqn:E; simpl; [|discriminate].
    destruct (mapM f l) as [bs0|]; simpl; [|discriminate].
    intros [= <-] b [<-|Hb].
    + exists a; auto.
    + destruct (IH bs0 eq_refl b Hb) as [a' [Ha' Hf]]. exists a'; auto.
Qed.

(** [map] with a callback that throws on the elements failing [p] throws at
    the first of them. *)
Lemma mapM_find (A B : Type) (f : A -> result B) (p : A -> bool)
  (g : A -> B) (err : A -> error) (l : list A) :
  (forall a, f a = if p a then OK (g a) else Error (err a)) ->
  mapM f l =
  match find (fun a => negb (p a)) l with
  | Some a => Error (err a)
  | None => OK (List.map g l)
  end.
Proof.
  intros Hf. induction l as [|a l IH]; simpl; [reflexivity|].
  rewrite Hf. destruct (p a); simpl; [|reflexivity].
  rewrite IH. destruct (find _ l); reflexivity.
Qed.

Lemma reduceM_app (A B : Type) (f : B -> A -> result B) (l1 l2 : list A)
  (init : B) :
  reduceM f (l1 ++ l2) init =
  (let* acc := reduceM f l1 init in reduceM f l2 acc).
Proof.
  revert init; induction l1 as [|a l1 IH]; intros init; simpl.
  - reflexivity.
  - destruct (f init a); simpl; auto.
Qed.

(* ----------------------------------------------------------------- *)
(** ** The parser: segments of the vector body *)

(** The callback of [parseMetrics], by the first two pieces of the segment. *)
Lemma parseMetric_spec (segment : jsstring) :
  parseMetric segment =
  if has_key_and_value segment
  then OK (key_value_of segment)
  else Error (InvalidMetricSegment segment).
Proof.
  unfold parseMetric, has_key_and_value, key_value_of, piece.
  destruct (split COLON segment) as [|k [|v l]]; simpl; try reflexivity.
  all: destruct k; simpl; try reflexivity.
  all: destruct v; reflexivity.
Qed.

Lemma parseMetric_OK (segment : jsstring) (kv : KeyValue) :
  parseMetric segment = OK kv -> key kv <> [] /\ value kv <> [].
Proof.
  unfold parseMetric.
  destruct (split COLON segment) as [|k [|v l]]; try discriminate.
  destruct k; simpl; [discriminate|]. destruct v; simpl; [discriminate|].
  intros [= <-]; simpl. split; discriminate.
Qed.

(** Every value that the parser stores is a non-empty string. *)
Lemma parseMetricsAsMap_values (cvssStr : jsstring) (m : MetricsMap) :
  parseMetricsAsMap cvssStr = OK m ->
  forall k v, get k m = Some v -> v <> [].
Proof.
  unfold parseMetricsAsMap.
  destruct (parseMetrics _) as [metrics|] eqn:E; simpl; [|discriminate].
  assert (Hm : forall kv, In kv metrics -> value kv <> []).
  { intros kv Hkv. destruct (mapM_OK _ _ E _ Hkv) as [a [_ Ha]].
    apply (parseMetric_OK _ Ha). }
  clear E.
  assert (Hinit : forall kv : jsstring * jsstring,
             In kv (@nil (jsstring * jsstring)) -> snd kv <> [])
    by (intros kv []).
  revert Hinit. generalize (@nil (jsstring * jsstring)) as init.
  induction metrics as [|kv metrics IH]; simpl; intros init Hinit.
  - intros [= <-] k v H. apply get_In in H. apply (Hinit _ H).
  - destruct (has (key kv) init); simpl; [discriminate|].
    apply IH.
    + intros kv' H. apply Hm. right; assumption.
    + intros kv' H. apply In_set in H. destruct H as [->|H].
      * simpl. apply Hm. left; reflexivity.
      * apply Hinit, H.
Qed.

(** The parser raises only its own two errors. *)
Lemma parseMetricsAsMap_Error (cvssStr : jsstring) (e : error) :
  parseMetricsAsMap cvssStr = Error e -> raised_by e = Some ParserCheck.
Proof.
  unfold parseMetricsAsMap.
  destruct (parseMetrics _) as [metrics|e0] eqn:E; cbn [bind].
  - clear E. generalize (@nil (jsstring * jsstring)).
    induction metrics as [|kv metrics IH]; intros init; simpl;
      [discriminate|].
    destruct (has (key kv) init); simpl.
    + intros [= <-]. reflexivity.
    + apply IH.
  - intros [= <-]. unfold parseMetrics in E.
    rewrite (@mapM_find _ _ _ _ _ _ _ parseMetric_spec) in E.
    destruct (find _ _); [|discriminate].
    injection E as <-. reflexivity.
Qed.

(** C9 as the specification states it, refuted: the body AV:N:X has a
    segment that does not split on the colon into exactly a key and a value,
    and [parseMetrics] does not raise on it: it returns the pair AV, N. *)
Lemma parseMetrics_accepts_second_colon :
  In (js "AV:N:X") (split SLASH (js "AV:N:X")) /\
  exactly_key_and_value (js "AV:N:X") = false /\
  parseMetrics (js "AV:N:X") = OK [mkKeyValue (js "AV") (js "N")].
Proof. vm_compute. auto. Qed.

(** C9 (amended).  [parseMetrics] raises [InvalidMetricSegment] for the
    first segment of the body, split on the slash, whose first piece on the
    colon (the key) is empty or whose second piece (the value) is missing or
    empty; when there is no such segment it returns, for every segment, its
    first two pieces as key and value.  Pieces after the second are ignored:
    the segment AV:N:X is parsed as the key AV with the value N. *)
Theorem parseMetrics_first_segment_without_key_and_value
  (vectorStr : jsstring) :
  parseMetrics vectorStr =
  match find (fun segment => negb (has_key_and_value segment))
          (split SLASH vectorStr) with
  | Some segment => Error (InvalidMetricSegment segment)
  | None => OK (List.map key_value_of (split SLASH vectorStr))
  end
  /\ has_key_and_value (js "AV:N:X") = true
  /\ key_value_of (js "AV:N:X") = mkKeyValue (js "AV") (js "N").
Proof.
  split; [|split; reflexivity].
  unfold parseMetrics. apply mapM_find. apply parseMetric_spec.
Qed.

(* ----------------------------------------------------------------- *)
(** ** The parser: the version *)

Lemma regex_rest_cons (c : N) (r : jsstring) :
  isLineTerminator c = false -> regex_rest r = None ->
  regex_rest (c :: r) = None.
Proof.
  unfold regex_rest. cbn [forallb]. intros -> H. cbn [negb andb].
  destruct (forallb _ r); [|reflexivity]. destruct r; discriminate.
Qed.

(** The match of [VERSION_REGEX] on a string that starts with CVSS:3.d,
    for a digit d. *)
Lemma VERSION_REGEX_exec_3 (d : N) (body : jsstring) :
  isDigit d = true ->
  VERSION_REGEX_exec (js "CVSS:3." ++ d :: body) =
  match regex_rest body with
  | Some group2 => Some ([51; 46; d]%N, group2)
  | None => None
  end.
Proof.
  intros D.
  assert (L : isLineTerminator d = false).
  { unfold isDigit in D. apply andb_true_iff in D. destruct D as [D1 D2].
    apply N.leb_le in D1, D2. unfold isLineTerminator. cbn [existsb].
    repeat (replace (N.eqb d _) with false
              by (symmetry; apply N.eqb_neq; lia)).
    reflexivity. }
  cbn [js list_ascii_of_string List.map app].
  unfold VERSION_REGEX_exec.
  cbn [js list_ascii_of_string List.map strip_prefix N_of_ascii N_of_digits
       N.eqb N.add N.mul Pos.eqb Pos.add Pos.mul Pos.succ].
  cbn. rewrite D. cbn.
  destruct (regex_rest body) eqn:R; [reflexivity|].
  rewrite (@regex_rest_cons 46 (d :: body)); [reflexivity | reflexivity |].
  apply regex_rest_cons; assumption.
Qed.

Lemma parse_3 (d : N) (body : jsstring) :
  isDigit d = true ->
  parseVersion (js "CVSS:3." ++ d :: body) =
  match regex_rest body with
  | Some _ => Some [51; 46; d]%N
  | None => None
  end
  /\
  parseVector (js "CVSS:3." ++ d :: body) =
  match regex_rest body with
  | Some (Some group2) => Some (trim (substr1 group2))
  | _ => None
  end.
Proof.
  intros D. unfold parseVersion, parseVector.
  rewrite (@VERSION_REGEX_exec_3 d body D).
  destruct (regex_rest body) as [[g|]|]; split; reflexivity.
Qed.

(* ----------------------------------------------------------------- *)
(** ** The validator *)

(** An accepted vector has passed every step of [validate]. *)
Lemma validate_OK_inv (cvssStr : jsstring) (r : ValidationResult) :
  validate cvssStr = OK r ->
  startsWith (js "CVSS:") cvssStr = true /\
  validateVersion (parseVersion cvssStr) = OK tt /\
  validateVector (parseVector cvssStr) = OK tt /\
  parseMetricsAsMap cvssStr = OK (metricsMap r) /\
  checkMandatoryMetrics (metricsMap r) baseMetrics = OK tt /\
  checkUnknownMetrics (metricsMap r) (Some allKnownMetrics) = OK tt /\
  checkMetricsValues (metricsMap r) allKnownMetrics allKnownMetricsValues
    = OK tt /\
  versionStr r = parseVersion cvssStr.
Proof.
  unfold validate.
  destruct (startsWith (js "CVSS:") cvssStr); cbn [negb]; [|discriminate].
  destruct (validateVersion _) as [[]|]; cbn [bind]; [|discriminate].
  destruct (truthy (parseVector cvssStr)); cbn [negb bind]; [|discriminate].
  destruct (validateVector _) as [[]|]; cbn [bind]; [|discriminate].
  destruct (parseMetricsAsMap cvssStr) as [m|]; cbn [bind]; [|discriminate].
  destruct (checkMandatoryMetrics _ _) as [[]|] eqn:E1; cbn [bind];
    [|discriminate].
  destruct (checkUnknownMetrics _ _) as [[]|] eqn:E2; cbn [bind];
    [|discriminate].
  destruct (checkMetricsValues _ _ _) as [[]|] eqn:E3; cbn [bind];
    [|discriminate].
  intros [= <-]; cbn [metricsMap versionStr]. auto 10.
Qed.

Lemma validateVersion_OK (v : option jsstring) :
  validateVersion v = OK tt <-> v = Some (js "3.0") \/ v = Some (js "3.1").
Proof.
  unfold validateVersion. split.
  - destruct v as [[|c v]|]; try discriminate.
    destruct (jseqb (c :: v) (js "3.0")) eqn:E0.
    + apply jseqb_eq in E0. rewrite E0. auto.
    + destruct (jseqb (c :: v) (js "3.1")) eqn:E1; [|discriminate].
      apply jseqb_eq in E1. rewrite E1. auto.
  - intros [-> | ->]; reflexivity.
Qed.

(** The map of an accepted vector is validated, and its version is one of
    the two supported ones. *)
Lemma validate_Validated (cvssStr : jsstring) (r : ValidationResult) :
  validate cvssStr = OK r ->
  Validated (metricsMap r) /\
  (versionStr r = Some (js "3.0") \/ versionStr r = Some (js "3.1")).
Proof.
  intros H. apply validate_OK_inv in H.
  destruct H as (_ & Hver & _ & Hparse & Hmand & Hknown & Hvals & Hv).
  split; [|rewrite Hv; apply validateVersion_OK, Hver].
  assert (K : forall k, has k (metricsMap r) = true -> In k allKnownMetrics).
  { intros k Hk. apply has_In_keys in Hk.
    unfold checkUnknownMetrics in Hknown.
    pose proof (proj1 (forM__OK _ _) Hknown k Hk) as H. cbv beta in H.
    destruct (arr_includes k allKnownMetrics) eqn:E; [|discriminate].
    apply arr_includes_In, E. }
  constructor.
  - intros b Hb. unfold checkMandatoryMetrics in Hmand.
    pose proof (proj1 (forM__OK _ _) Hmand b Hb) as H. cbv beta in H.
    destruct (has b (metricsMap r)); [reflexivity | discriminate].
  - exact K.
  - intros k v Hg.
    assert (Hk : In k allKnownMetrics)
      by (apply K, has_get; eauto).
    pose proof (parseMetricsAsMap_values _ Hparse _ Hg) as Hne.
    unfold checkMetricsValues in Hvals.
    pose proof (proj1 (forM__OK _ _) Hvals k Hk) as H. cbv beta zeta in H.
    rewrite Hg in H. destruct v as [|c v]; [congruence|].
    unfold allowedValues.
    destruct (get k allKnownMetricsValues) as [allowed|]; [|discriminate].
    destruct (arr_includes (c :: v) allowed) eqn:E; [|discriminate].
    apply arr_includes_In, E.
Qed.

(** The value of a mandatory metric of a validated map. *)
Lemma Validated_base (m : MetricsMap) (b : jsstring) :
  Validated m -> In b baseMetrics ->
  exists v, get b m = Some v /\ In v (allowedValues b).
Proof.
  intros V Hb. pose proof (@validated_mandatory _ V b Hb) as H.
  apply has_get in H. destruct H as [v H].
  exists v. split; [assumption | apply (@validated_values _ V _ _ H)].
Qed.

(** Every known metric has an entry in the merged table of legal values. *)
Lemma allKnownMetrics_have_values (k : jsstring) :
  In k allKnownMetrics ->
  exists allowed, get k allKnownMetricsValues = Some allowed.
Proof.
  intros H. vm_compute in H.
  repeat (destruct H as [<-|H]; [eexists; reflexivity|]).
  destruct H.
Qed.

(** The last check of [validate], on a map of the parser all of whose keys
    are known. *)
Lemma checkMetricsValues_spec (m : MetricsMap) :
  (forall k v, get k m = Some v -> v <> []) ->
  (forall k, In k (keys m) -> In k allKnownMetrics) ->
  if existsb
       (fun k =>
          match get k m with
          | Some v => negb (arr_includes v (allowedValues k))
          | None => false
          end)
       (keys m)
  then exists k v,
         checkMetricsValues m allKnownMetrics allKnownMetricsValues
         = Error (InvalidMetricValue k v)
  else checkMetricsValues m allKnownMetrics allKnownMetricsValues = OK tt.
Proof.
  intros Hne Hknown.
  set (f := fun metric : jsstring =>
              match get metric m with
              | Some (c :: v) =>
                  match get metric allKnownMetricsValues with
                  | Some allowed =>
                      if negb (arr_includes (c :: v) allowed)
                      then Error (InvalidMetricValue metric (c :: v))
                      else OK tt
                  | None => Error TypeError
                  end
              | _ => OK tt
              end).
  assert (F : forall k, In k allKnownMetrics ->
              f k = match get k m with
                    | Some v =>
                        if negb (arr_includes v (allowedValues k))
                        then Error (InvalidMetricValue k v)
                        else OK tt
                    | None => OK tt
                    end).
  { intros k Hk. unfold f, allowedValues.
    destruct (@allKnownMetrics_have_values _ Hk) as [allowed ->].
    destruct (get k m) as [[|c v]|] eqn:G; try reflexivity.
    exfalso. apply (Hne _ _ G). reflexivity. }
  change (checkMetricsValues m allKnownMetrics allKnownMetricsValues)
    with (forM_ f allKnownMetrics).
  destruct (existsb _ (keys m)) eqn:E.
  - apply existsb_exists in E. destruct E as [k [Hk Hbad]].
    destruct (get k m) as [v|] eqn:G; [|discriminate].
    destruct (forM_ f allKnownMetrics) as [[]|e] eqn:R.
    + pose proof (proj1 (forM__OK _ _) R k (Hknown k Hk)) as Fk.
      rewrite (F k (Hknown k Hk)), G, Hbad in Fk. discriminate.
    + apply forM__Error_In in R. destruct R as [a [Ha Fa]].
      rewrite (F a Ha) in Fa.
      destruct (get a m) as [w|]; [|discriminate].
      destruct (negb (arr_includes w (allowedValues a))); [|discriminate].
      exists a, w. congruence.
  - apply forM__OK. intros k Hk. rewrite (F k Hk).
    destruct (get k m) as [v|] eqn:G; [|reflexivity].
    assert (Hin : In k (keys m)) by (apply has_In_keys, has_get; eauto).
    destruct (negb (arr_includes v (allowedValues k))) eqn:B; [|reflexivity].
    rewrite (proj2 (existsb_exists _ _)) in E; [discriminate|].
    exists k. split; [assumption|]. rewrite G. exact B.
Qed.

(** The error raised at this point is the one of the check at hand. *)
Ltac raised :=
  eexists; split; [reflexivity | split; [reflexivity | exact I]].

(** C8.  [validate] raises the error of the first check, in the order
    prefix, version, vector body, parser, mandatory metrics, unknown metrics,
    metric values, whose failure condition the input triggers, whatever
    later conditions it triggers as well; the error of the mandatory check
    names the first absent Base metric; and [validate] returns a result when
    the input triggers none of the conditions. *)
Theorem validate_raises_first_failing_check (cvssStr : jsstring) :
  match find (fails cvssStr) all_checks with
  | Some c =>
      exists e,
        validate cvssStr = Error e /\
        raised_by e = Some c /\
        names_first_absent cvssStr e
  | None => exists r, validate cvssStr = OK r
  end.
Proof.
  unfold validate. cbn [all_checks find fails].
  destruct (startsWith (js "CVSS:") cvssStr); cbn [negb].
  2: raised.
  (* the version *)
  unfold validateVersion.
  destruct (parseVersion cvssStr) as [[|c v]|].
  1,3: raised.
  rewrite negb_orb.
  destruct (negb (jseqb (c :: v) (js "3.0"))
            && negb (jseqb (c :: v) (js "3.1"))).
  { raised. }
  cbn [bind].
  (* the vector body *)
  unfold validateVector.
  destruct (parseVector cvssStr) as [[|c0 body]|]; cbn [truthy negb bind].
  1,3: raised.
  replace (jseqb (c0 :: body) []) with false by reflexivity. cbn [orb].
  destruct (includes (js "//") (c0 :: body)).
  { raised. }
  cbn [bind].
  (* the parser *)
  unfold on_map.
  destruct (parseMetricsAsMap cvssStr) as [m|e] eqn:PM; cbn [bind].
  2:{ exists e. split; [reflexivity|].
      pose proof (parseMetricsAsMap_Error _ PM) as R.
      split; [exact R|]. destruct e; try discriminate R; exact I. }
  (* the mandatory metrics *)
  unfold checkMandatoryMetrics. rewrite forM__find, existsb_find.
  destruct (find (fun b => negb (has b m)) baseMetrics) as [b|] eqn:FM.
  { exists (MissingMandatoryMetric b). split; [reflexivity|].
    split; [reflexivity|].
    unfold names_first_absent. rewrite PM. exact FM. }
  cbn [bind].
  (* the unknown metrics *)
  unfold checkUnknownMetrics. rewrite forM__find, existsb_find.
  destruct (find (fun k => negb (arr_includes k allKnownMetrics)) (keys m))
    as [k|] eqn:FU.
  { raised. }
  cbn [bind].
  (* the values *)
  assert (K : forall k, In k (keys m) -> In k allKnownMetrics).
  { intros k Hk. pose proof (find_none_forall _ _ FU k Hk) as H.
    cbv beta in H. apply arr_includes_In.
    destruct (arr_includes k allKnownMetrics);
      [reflexivity | discriminate H]. }
  pose proof (@checkMetricsValues_spec m
                (parseMetricsAsMap_values _ PM) K) as S.
  destruct (existsb _ (keys m)).
  - destruct S as (k & w & ->). cbn [bind].
    raised.
  - rewrite S. cbn [bind]. eexists. reflexivity.
Qed.

(** The two supported prefixes give the same map, or the same error. *)
Lemma validate_version_independent (body : jsstring) :
  match validate (js "CVSS:3.0" ++ body), validate (js "CVSS:3.1" ++ body) with
  | OK r0, OK r1 => metricsMap r0 = metricsMap r1
  | Error e0, Error e1 => e0 = e1
  | _, _ => False
  end.
Proof.
  change (js "CVSS:3.0" ++ body) with (js "CVSS:3." ++ 48%N :: body).
  change (js "CVSS:3.1" ++ body) with (js "CVSS:3." ++ 49%N :: body).
  destruct (@parse_3 48 body eq_refl) as [V0 P0].
  destruct (@parse_3 49 body eq_refl) as [V1 P1].
  assert (M : parseMetricsAsMap (js "CVSS:3." ++ 49%N :: body)
              = parseMetricsAsMap (js "CVSS:3." ++ 48%N :: body)).
  { unfold parseMetricsAsMap. rewrite P0, P1. reflexivity. }
  unfold validate. rewrite V0, V1, P0, P1, M. clear V0 V1 P0 P1 M.
  replace (startsWith (js "CVSS:") (js "CVSS:3." ++ 48%N :: body))
    with true by reflexivity.
  replace (startsWith (js "CVSS:") (js "CVSS:3." ++ 49%N :: body))
    with true by reflexivity.
  cbn [negb].
  destruct (regex_rest body) as [g|]; [|exact eq_refl].
  replace (validateVersion (Some [51; 46; 48]%N)) with (OK tt)
    by reflexivity.
  replace (validateVersion (Some [51; 46; 49]%N)) with (OK tt)
    by reflexivity.
  cbn [bind].
  destruct (truthy _); cbn [negb bind]; [|exact eq_refl].
  destruct (validateVector _) as [[]|]; cbn [bind]; [|exact eq_refl].
  destruct (parseMetricsAsMap _) as [m|]; cbn [bind]; [|exact eq_refl].
  destruct (checkMandatoryMetrics _ _) as [[]|]; cbn [bind];
    [|exact eq_refl].
  destruct (checkUnknownMetrics _ _) as [[]|]; cbn [bind]; [|exact eq_refl].
  destruct (checkMetricsValues _ _ _) as [[]|]; cbn [bind]; exact eq_refl.
Qed.

(** A vector with an unsupported version, no body and no metric triggers
    three failure conditions; the version is the one reported. *)
Example validate_unsupported_version :
  validate (js "CVSS:2.0") = Error (UnsupportedVersion (Some (js "2.0"))).
Proof. reflexivity. Qed.

Example validate_duplicate_metric :
  validate (js "CVSS:3.1/AV:N/AV:L/AC:L/PR:N/UI:N/S:U/C:H/I:H/A:H")
  = Error (DuplicateMetric (js "AV") (js "L")).
Proof. reflexivity. Qed.

Example validate_unknown_metric :
  validate (vector_unchanged ++ js "/ZZ:N") = Error (UnknownMetric (js "ZZ")).
Proof. reflexivity. Qed.

(** A missing mandatory metric is reported before an unknown one. *)
Example validate_missing_before_unknown :
  validate (js "CVSS:3.1/ZZ:N/AV:N/AC:L/PR:N/UI:N/S:U/C:H/I:H")
  = Error (MissingMandatoryMetric BaseMetric.AVAILABILITY).
Proof. reflexivity. Qed.

(** A trailing slash leaves an empty last segment, which the parser
    rejects. *)
Example validate_trailing_slash :
  validate (vector_unchanged ++ js "/") = Error (InvalidMetricSegment []).
Proof. reflexivity. Qed.

(* ----------------------------------------------------------------- *)
(** ** Rounding *)

(** [lra] on [Q] knows no division: divisions by literals become
    multiplications. *)
Ltac undiv :=
  unfold Qdiv in *;
  repeat match goal with
         | |- context [Qinv (Qmake ?a ?b)] =>
             let r := eval compute in (Qinv (Qmake a b)) in
             change (Qinv (Qmake a b)) with r
         | H : context [Qinv (Qmake ?a ?b)] |- _ =>
             let r := eval compute in (Qinv (Qmake a b)) in
             change (Qinv (Qmake a b)) with r in H
         end.

(** The floor is the only integer within one below. *)
Lemma Qfloor_unique (x : Q) (z : Z) :
  inject_Z z <= x -> x < inject_Z (z + 1) -> Qfloor x = z.
Proof.
  intros Hl Hu.
  pose proof (Qfloor_le x) as Fl. pose proof (Qlt_floor x) as Fu.
  assert (A : (Qfloor x < z + 1)%Z).
  { rewrite Zlt_Qlt. eapply Qle_lt_trans; eassumption. }
  assert (B : (z < Qfloor x + 1)%Z).
  { rewrite Zlt_Qlt. eapply Qle_lt_trans; eassumption. }
  lia.
Qed.

Lemma Qfloor_plus_1 (x : Q) : Qfloor (x + 1) = (Qfloor x + 1)%Z.
Proof.
  pose proof (Qfloor_le x) as L. pose proof (Qlt_floor x) as U.
  apply Qfloor_unique.
  - rewrite inject_Z_plus. change (inject_Z 1) with 1. lra.
  - rewrite inject_Z_plus in U |- *. rewrite inject_Z_plus.
    change (inject_Z 1) with 1 in *. lra.
Qed.

Lemma Math_round_inject_Z (z : Z) : Math_round (inject_Z z) = z.
Proof.
  unfold Math_round. apply Qfloor_unique.
  - lra.
  - rewrite inject_Z_plus. change (inject_Z 1) with 1. lra.
Qed.

Lemma Math_round_mono (x y : Q) : x <= y -> (Math_round x <= Math_round y)%Z.
Proof.
  intros H. unfold Math_round. apply Qfloor_resp_le. lra.
Qed.

(** [roundUp] returns a whole number of tenths. *)
Lemma roundUp_tenths (x : Q) :
  roundUp x == inject_Z (tenths (Math_round (x * 100000))) / 10.
Proof.
  unfold roundUp, tenths, Math_floor.
  set (i := Math_round (x * 100000)).
  change (10000 : Q) with (inject_Z 10000).
  rewrite <- Zdiv_Qdiv.
  destruct (Z.rem i 10000 =? 0)%Z eqn:E; [|reflexivity].
  apply Z.eqb_eq in E.
  apply Z.rem_mod_eq_0 in E; [|lia].
  apply Z.div_exact in E; [|lia].
  rewrite E at 1. rewrite inject_Z_mult. 
  change (inject_Z 10000) with 10000. field.
Qed.

Lemma tenths_mono (i j : Z) : (i <= j)%Z -> (tenths i <= tenths j)%Z.
Proof.
  unfold tenths. intros H.
  destruct (Z.rem i 10000 =? 0)%Z eqn:Ei;
    destruct (Z.rem j 10000 =? 0)%Z eqn:Ej.
  all: try (apply Z.eqb_eq in Ei; apply Z.rem_mod_eq_0 in Ei; [|lia]).
  all: try (apply Z.eqb_eq in Ej; apply Z.rem_mod_eq_0 in Ej; [|lia]).
  all: try (apply Z.eqb_neq in Ei; rewrite Z.rem_mod_eq_0 in Ei by lia).
  all: try (apply Z.eqb_neq in Ej; rewrite Z.rem_mod_eq_0 in Ej by lia).
  all: Z.div_mod_to_equations; lia.
Qed.

Lemma tenths_exact (k : Z) : tenths (10000 * k) = k.
Proof.
  unfold tenths. rewrite (Z.mul_comm 10000 k).
  rewrite Z.rem_mul by lia. rewrite Z.div_mul by lia. reflexivity.
Qed.

(** [roundUp] sees the value of its argument only. *)
Lemma roundUp_compat (x y : Q) : x == y -> roundUp x = roundUp y.
Proof.
  intros H. unfold roundUp, Math_round.
  assert (E : Qfloor (x * 100000 + 0.5) = Qfloor (y * 100000 + 0.5)).
  { apply Qfloor_comp. rewrite H. reflexivity. }
  rewrite E. reflexivity.
Qed.

Lemma roundUp_mono (x y : Q) : x <= y -> roundUp x <= roundUp y.
Proof.
  intros H. rewrite !roundUp_tenths.
  assert (T : (tenths (Math_round (x * 100000))
               <= tenths (Math_round (y * 100000)))%Z).
  { apply tenths_mono, Math_round_mono. lra. }
  rewrite Zle_Qle in T. undiv. lra.
Qed.

(** [roundUp] fixes the multiples of one tenth. *)
Lemma roundUp_of_tenths (k : Z) : roundUp (inject_Z k / 10) == inject_Z k / 10.
Proof.
  rewrite roundUp_tenths.
  assert (E : Math_round (inject_Z k / 10 * 100000) = (10000 * k)%Z).
  { rewrite <- (Math_round_inject_Z (10000 * k)).
    unfold Math_round. apply Qfloor_comp.
    rewrite inject_Z_mult. change (inject_Z 10000) with 10000. field. }
  rewrite E, tenths_exact. reflexivity.
Qed.

Lemma roundUp_idem x : roundUp (roundUp x) == roundUp x.
Proof.
  rewrite (@roundUp_compat _ _ (roundUp_tenths x)).
  rewrite roundUp_of_tenths. symmetry. apply roundUp_tenths.
Qed.

Lemma roundUp_0 : roundUp 0 == 0.
Proof. reflexivity. Qed.

Lemma roundUp_10 : roundUp 10 == 10.
Proof. reflexivity. Qed.

Lemma roundUp_is_tenth (x : Q) : is_tenth (roundUp x).
Proof. eexists. apply roundUp_tenths. Qed.

Lemma roundUp_fixes_tenth (q : Q) : is_tenth q -> roundUp q == q.
Proof.
  intros [k Hk]. rewrite (roundUp_compat Hk), Hk. apply roundUp_of_tenths.
Qed.

(** The assembly of a Base or Environmental score: rounding up a
    nonnegative number capped at 10 gives a score. *)
Lemma roundUp_capped_is_score (x : Q) :
  0 <= x -> is_score (roundUp (Qmin x 10)).
Proof.
  intros H. repeat split.
  - pose proof roundUp_0 as F.
    assert (M : roundUp 0 <= roundUp (Qmin x 10))
      by (apply roundUp_mono, Q.min_glb; [assumption | lra]).
    lra.
  - pose proof roundUp_10 as F.
    pose proof (roundUp_mono (Q.le_min_r x 10)) as M. lra.
  - apply roundUp_is_tenth.
Qed.

Lemma is_score_0 : is_score 0.
Proof.
  repeat split; try discriminate. exists 0%Z. reflexivity.
Qed.

(** Damping a score by weights that are at most 1 and rounding it up gives
    a score that is no larger. *)
Lemma roundUp_damped (b x y z : Q) :
  is_score b -> 0 < x <= 1 -> 0 < y <= 1 -> 0 < z <= 1 ->
  is_score (roundUp (b * x * y * z)) /\ roundUp (b * x * y * z) <= b.
Proof.
  intros (B0 & B10 & Bt) Hx Hy Hz.
  assert (P1 : 0 <= b * x /\ b * x <= b) by nra.
  assert (P2 : 0 <= b * x * y /\ b * x * y <= b) by nra.
  assert (P3 : 0 <= b * x * y * z /\ b * x * y * z <= b) by nra.
  assert (U : roundUp (b * x * y * z) <= b).
  { pose proof (roundUp_fixes_tenth Bt) as F.
    pose proof (roundUp_mono (proj2 P3)) as M. lra. }
  split; [|assumption].
  repeat split.
  - pose proof roundUp_0 as F.
    pose proof (roundUp_mono (proj1 P3)) as M. lra.
  - lra.
  - apply roundUp_is_tenth.
Qed.

(** [roundUp] is the function that the specification describes. *)
Lemma roundUp_roundUp_spec (x : Q) : roundUp x = roundUp_spec x.
Proof.
  unfold roundUp, roundUp_spec, Math_floor. cbv zeta.
  set (i := Math_round (x * 100000)).
  rewrite Qfloor_plus_1.
  destruct (Z.rem i 10000 =? 0)%Z eqn:R;
    destruct (i mod 10000 =? 0)%Z eqn:M; try reflexivity.
  - apply Z.eqb_eq in R. apply Z.eqb_neq in M.
    apply Z.rem_mod_eq_0 in R; [contradiction | lia].
  - apply Z.eqb_neq in R. apply Z.eqb_eq in M.
    apply Z.rem_mod_eq_0 in M; [contradiction | lia].
Qed.

(** C7.  For every x with 0 <= x <= 10, [roundUp (roundUp x)] equals
    [roundUp x], where [roundUp] is the function that the specification
    describes: multiply by 100000, round to the nearest integer, return
    that/100000 when the integer is divisible by 10000 and
    floor(that/10000 + 1)/10 otherwise. *)
Theorem roundUp_idempotent (x : Q) :
  0 <= x -> x <= 10 ->
  roundUp x = roundUp_spec x /\ roundUp (roundUp x) == roundUp x.
Proof.
  intros _ _. split; [apply roundUp_roundUp_spec | apply roundUp_idem].
Qed.

Lemma roundUp_idempotent_witness :
  roundUp 9.760161495 = roundUp_spec 9.760161495 /\
  roundUp (roundUp 9.760161495) == roundUp 9.760161495.
Proof.
  apply roundUp_idempotent; vm_compute; discriminate.
Defined.

(* ----------------------------------------------------------------- *)
(** ** Weights *)

(** The meaning of the table check [weights_within]. *)
Lemma weights_within_spec (lo hi : Q) (metrics : list jsstring)
  (values : jsstring -> list jsstring) :
  weights_within lo hi metrics values = true ->
  forall metric v, In metric metrics -> In v (values metric) ->
  exists w, tableWeight metric v = Some w /\ lo <= w /\ w <= hi.
Proof.
  unfold weights_within. intros H metric v Hm Hv.
  rewrite forallb_forall in H. specialize (H metric Hm).
  rewrite forallb_forall in H. specialize (H v Hv).
  destruct (tableWeight metric v) as [w|]; [|discriminate].
  apply andb_true_iff in H. destruct H as [H1 H2].
  apply Qle_bool_iff in H1, H2. eauto.
Qed.

(** Outside Privileges Required, the weight of a metric is the one that the
    merged table gives to its value. *)
Lemma getMetricNumericValue_table (metric : jsstring) (m : MetricsMap)
  (v : jsstring) (w : Q) :
  get metric m = Some v ->
  jseqb metric BaseMetric.PRIVILEGES_REQUIRED = false ->
  jseqb metric EnvironmentalMetric.MODIFIED_PRIVILEGES_REQUIRED = false ->
  tableWeight metric v = Some w ->
  getMetricNumericValue metric m = OK w.
Proof.
  intros Hg Hpr Hmpr Hw. unfold getMetricNumericValue.
  destruct metric as [|c metric]; [discriminate Hw|].
  unfold getMetricValue. rewrite Hg. cbn [bind]. rewrite Hpr, Hmpr.
  unfold tableWeight in Hw.
  destruct (entry (c :: metric) allMetricValueScores) as [sc|];
    [|discriminate].
  rewrite Hw. reflexivity.
Qed.

Lemma weight_of_legal (lo hi : Q) (metrics : list jsstring)
  (m : MetricsMap) (k v : jsstring) :
  weights_within lo hi metrics allowedValues = true ->
  In k metrics ->
  get k m = Some v -> In v (allowedValues k) ->
  jseqb k BaseMetric.PRIVILEGES_REQUIRED = false ->
  jseqb k EnvironmentalMetric.MODIFIED_PRIVILEGES_REQUIRED = false ->
  exists w, getMetricNumericValue k m = OK w /\ lo <= w /\ w <= hi.
Proof.
  intros W Hk Hg Hv Hpr Hmpr.
  destruct (@weights_within_spec _ _ _ _ W k v Hk Hv) as [w [Hw B]].
  exists w. split; [|assumption].
  apply getMetricNumericValue_table with (v := v); assumption.
Qed.

(** The weight of Privileges Required, for legal values of it and of Scope. *)
Lemma getPrivilegesRequiredNumericValue_OK (v s : jsstring) :
  In v (allowedValues BaseMetric.PRIVILEGES_REQUIRED) ->
  In s (allowedValues BaseMetric.SCOPE) ->
  exists w, getPrivilegesRequiredNumericValue v s = OK w /\
            0.27 <= w /\ w <= 0.85.
Proof.
  intros Hv Hs. vm_compute in Hv, Hs.
  destruct Hv as [<-|[<-|[<-|[]]]]; destruct Hs as [<-|[<-|[]]];
    eexists; (split; [reflexivity|split; discriminate]).
Qed.

Lemma base_weight (lo hi : Q) (metrics : list jsstring) (m : MetricsMap)
  (b : jsstring) :
  weights_within lo hi metrics allowedValues = true ->
  Validated m -> In b metrics -> In b baseMetrics ->
  jseqb b BaseMetric.PRIVILEGES_REQUIRED = false ->
  jseqb b EnvironmentalMetric.MODIFIED_PRIVILEGES_REQUIRED = false ->
  exists w, getMetricNumericValue b m = OK w /\ lo <= w /\ w <= hi.
Proof.
  intros W V Hb Hbase Hpr Hmpr.
  destruct (@Validated_base m b V Hbase) as [v [Hg Hv]].
  destruct (@weights_within_spec _ _ _ _ W b v Hb Hv) as [w [Hw Hlh]].
  exists w. split; [|assumption].
  apply getMetricNumericValue_table with (v := v); assumption.
Qed.

Lemma PRIVILEGES_REQUIRED_weight (m : MetricsMap) :
  Validated m ->
  exists w, getMetricNumericValue BaseMetric.PRIVILEGES_REQUIRED m = OK w /\
            0.27 <= w /\ w <= 0.85.
Proof.
  intros V.
  destruct (@Validated_base m BaseMetric.PRIVILEGES_REQUIRED V)
    as [v [Hv Lv]]; [vm_compute; tauto|].
  destruct (@Validated_base m BaseMetric.SCOPE V)
    as [s [Hs Ls]]; [vm_compute; tauto|].
  destruct (@getPrivilegesRequiredNumericValue_OK _ _ Lv Ls) as [w [Hw B]].
  exists w. split; [|assumption].
  unfold getMetricNumericValue, getMetricValue.
  change (get BaseMetric.PRIVILEGES_REQUIRED m) with (get (js "PR") m) in Hv.
  cbn [BaseMetric.PRIVILEGES_REQUIRED js list_ascii_of_string List.map].
  cbn [BaseMetric.PRIVILEGES_REQUIRED js list_ascii_of_string List.map] in Hv.
  rewrite Hv. cbn [bind]. rewrite jseqb_refl. rewrite Hs. cbn [bind].
  exact Hw.
Qed.

Lemma calculateIss_OK (m : MetricsMap) :
  Validated m -> exists iss, calculateIss m = OK iss.
Proof.
  intros V.
  assert (W : weights_within 0 0.56
                [BaseMetric.CONFIDENTIALITY; BaseMetric.INTEGRITY;
                 BaseMetric.AVAILABILITY] allowedValues = true)
    by (vm_compute; reflexivity).
  unfold calculateIss.
  destruct (@base_weight _ _ _ m BaseMetric.CONFIDENTIALITY W V)
    as [c [-> _]]; try (vm_compute; tauto); try reflexivity.
  destruct (@base_weight _ _ _ m BaseMetric.INTEGRITY W V)
    as [i [-> _]]; try (vm_compute; tauto); try reflexivity.
  destruct (@base_weight _ _ _ m BaseMetric.AVAILABILITY W V)
    as [a [-> _]]; try (vm_compute; tauto); try reflexivity.
  cbn [bind]. eauto.
Qed.

Lemma calculateExploitability_OK (m : MetricsMap) :
  Validated m -> exists e, calculateExploitability m = OK e /\ 0 < e.
Proof.
  intros V.
  assert (W : weights_within 0.2 0.85
                [BaseMetric.ATTACK_VECTOR; BaseMetric.ATTACK_COMPLEXITY;
                 BaseMetric.USER_INTERACTION] allowedValues = true)
    by (vm_compute; reflexivity).
  unfold calculateExploitability.
  destruct (@base_weight _ _ _ m BaseMetric.ATTACK_VECTOR W V)
    as [av [-> [Hav _]]]; try (vm_compute; tauto); try reflexivity.
  destruct (@base_weight _ _ _ m BaseMetric.ATTACK_COMPLEXITY W V)
    as [ac [-> [Hac _]]]; try (vm_compute; tauto); try reflexivity.
  destruct (@PRIVILEGES_REQUIRED_weight m V) as [pr [-> [Hpr _]]].
  destruct (@base_weight _ _ _ m BaseMetric.USER_INTERACTION W V)
    as [ui [-> [Hui _]]]; try (vm_compute; tauto); try reflexivity.
  cbn [bind]. eexists. split; [reflexivity|].
  assert (0 < 8.22 * av) by lra.
  assert (0 < 8.22 * av * ac) by nra.
  assert (0 < 8.22 * av * ac * pr) by nra.
  nra.
Qed.

(* ----------------------------------------------------------------- *)
(** ** The Base score *)

Lemma nonpositive_false (x : Q) : nonpositive x = false -> 0 < x.
Proof.
  unfold nonpositive. intros H. apply Qnot_le_lt. intros L.
  apply Qle_bool_iff in L. congruence.
Qed.

(** For every accepted vector, [calculateBaseScore] returns a score. *)
Lemma calculateBaseScore_OK (cvssStr : jsstring) (r : ValidationResult) :
  validate cvssStr = OK r ->
  exists b, calculateBaseScore cvssStr = OK b /\ is_score b.
Proof.
  intros H. destruct (validate_Validated _ H) as [V _].
  destruct (calculateIss_OK V) as [iss Hiss].
  destruct (calculateExploitability_OK V) as [e [He Hpos]].
  exists (baseScoreOf (metricsMap r) iss e). split.
  - unfold calculateBaseScore, calculateBaseResult.
    rewrite H. cbn [bind]. rewrite Hiss. cbn [bind]. rewrite He. reflexivity.
  - unfold baseScoreOf. cbv zeta.
    destruct (nonpositive _) eqn:N; [apply is_score_0|].
    apply nonpositive_false in N.
    destruct (get_is _ _ _); apply roundUp_capped_is_score; lra.
Qed.

(** C3 as the specification states it, refuted: the Base score of
    CVSS:3.0/AV:A/AC:H/PR:H/UI:R/S:U/C:N/I:N/A:L is not 2.5. *)
Lemma calculateBaseScore_vector_low_not_2_5 :
  ~ returns (calculateBaseScore vector_low) 2.5.
Proof. vm_compute. discriminate. Qed.

(** C3 (amended).  [calculateBaseScore] applied to
    CVSS:3.0/AV:A/AC:H/PR:H/UI:R/S:U/C:N/I:N/A:L returns 1.8: the impact is
    6.42 * 0.22 = 1.4124, the exploitability is
    8.22 * 0.62 * 0.44 * 0.27 * 0.62 = 0.3753804384, and their sum
    1.7877804384 rounds up to 1.8. *)
Theorem calculateBaseScore_vector_low :
  returns (calculateBaseScore vector_low) 1.8.
Proof. vm_compute. reflexivity. Qed.

(** C4.  [calculateBaseScore] returns 9.8 on
    CVSS:3.1/AV:N/AC:L/PR:N/UI:N/S:U/C:H/I:H/A:H and 10.0 on
    CVSS:3.1/AV:N/AC:L/PR:N/UI:N/S:C/C:H/I:H/A:H. *)
Theorem calculateBaseScore_reference_vectors :
  returns (calculateBaseScore vector_unchanged) 9.8 /\
  returns (calculateBaseScore vector_changed) 10.0.
Proof. split; vm_compute; reflexivity. Qed.

(* ----------------------------------------------------------------- *)
(** ** The Temporal score *)

Lemma get_populate_one (m : MetricsMap) (t k : jsstring) :
  get k (if negb (has t m) then set t (js "X") m else m) =
  match get k m with
  | Some v => Some v
  | None => if jseqb k t then Some (js "X") else None
  end.
Proof.
  destruct (has t m) eqn:E; cbn [negb].
  - destruct (get k m) eqn:G; [reflexivity|].
    destruct (jseqb k t) eqn:K; [|reflexivity].
    apply jseqb_eq in K; subst k. apply has_false_get in G. congruence.
  - rewrite get_set. apply has_false_get in E.
    destruct (jseqb k t) eqn:K.
    + apply jseqb_eq in K; subst k. rewrite E. reflexivity.
    + destruct (get k m); reflexivity.
Qed.

(** The map after the Temporal default population: the absent Temporal
    metrics hold X, nothing else changes. *)
Lemma get_populateTemporalMetricDefaults (m : MetricsMap) (k : jsstring) :
  get k (populateTemporalMetricDefaults m) =
  match get k m with
  | Some v => Some v
  | None => if arr_includes k temporalMetrics then Some (js "X") else None
  end.
Proof.
  unfold populateTemporalMetricDefaults, temporalMetrics, arr_includes.
  cbn [fold_left existsb]. rewrite !get_populate_one.
  destruct (get k m); [reflexivity|].
  destruct (jseqb k TemporalMetric.EXPLOIT_CODE_MATURITY);
    destruct (jseqb k TemporalMetric.REMEDIATION_LEVEL);
    destruct (jseqb k TemporalMetric.REPORT_CONFIDENCE); reflexivity.
Qed.

Lemma unset_populateTemporalMetricDefaults (m : MetricsMap) (k : jsstring) :
  arr_includes k temporalMetrics = false ->
  unset k (populateTemporalMetricDefaults m) = unset k m.
Proof.
  intros H. unfold unset.
  rewrite get_populateTemporalMetricDefaults, H.
  destruct (get k m); reflexivity.
Qed.

Lemma temporal_weight (m : MetricsMap) (t : jsstring) :
  Validated m -> In t temporalMetrics ->
  exists w, getMetricNumericValue t (populateTemporalMetricDefaults m) = OK w
            /\ 0.91 <= w /\ w <= 1.
Proof.
  intros V Ht.
  assert (W : weights_within 0.91 1 temporalMetrics allowedValues = true)
    by (vm_compute; reflexivity).
  assert (G : exists v, get t (populateTemporalMetricDefaults m) = Some v /\
                        In v (allowedValues t)).
  { rewrite get_populateTemporalMetricDefaults.
    destruct (get t m) as [v|] eqn:E.
    - exists v. split; [reflexivity | apply (@validated_values _ V _ _ E)].
    - apply arr_includes_In in Ht. rewrite Ht. exists (js "X").
      split; [reflexivity|]. apply arr_includes_In in Ht.
      destruct Ht as [<-|[<-|[<-|[]]]]; vm_compute; tauto. }
  destruct G as [v [Hg Hv]].
  destruct (@weights_within_spec _ _ _ _ W t v Ht Hv) as [w [Hw B]].
  exists w. split; [|assumption].
  apply getMetricNumericValue_table with (v := v); try assumption.
  - for_each_member Ht.
  - for_each_member Ht.
Qed.

(** For every accepted vector, [calculateTemporalScore] returns a score, no
    larger than the Base score. *)
Lemma calculateTemporalScore_OK (cvssStr : jsstring) (r : ValidationResult) :
  validate cvssStr = OK r ->
  exists t b, calculateTemporalScore cvssStr = OK t /\
              calculateBaseScore cvssStr = OK b /\
              is_score t /\ is_score b /\ t <= b.
Proof.
  intros H. destruct (validate_Validated _ H) as [V _].
  destruct (calculateBaseScore_OK _ H) as [b [Hb Sb]].
  destruct (@temporal_weight _ TemporalMetric.REPORT_CONFIDENCE V)
    as [rc [Hrc Brc]]; [vm_compute; tauto|].
  destruct (@temporal_weight _ TemporalMetric.EXPLOIT_CODE_MATURITY V)
    as [e [He Be]]; [vm_compute; tauto|].
  destruct (@temporal_weight _ TemporalMetric.REMEDIATION_LEVEL V)
    as [rl [Hrl Brl]]; [vm_compute; tauto|].
  exists (roundUp (b * rc * e * rl)), b.
  assert (D : is_score (roundUp (b * rc * e * rl)) /\
              roundUp (b * rc * e * rl) <= b)
    by (apply roundUp_damped; [assumption | lra | lra | lra]).
  split; [|split; [exact Hb | tauto]].
  unfold calculateTemporalScore, calculateTemporalResult.
  rewrite H. cbn [bind].
  unfold calculateBaseScore in Hb.
  destruct (calculateBaseResult cvssStr) as [base|]; [|discriminate].
  cbn [bind] in Hb |- *. injection Hb as Hb.
  rewrite Hrc. cbn [bind]. rewrite He. cbn [bind]. rewrite Hrl. cbn [bind].
  cbn [score]. rewrite Hb. reflexivity.
Qed.

(** C6.  For every vector string accepted by [validate],
    [calculateTemporalScore] and [calculateBaseScore] both return a number,
    and the Temporal score is less than or equal to the Base score. *)
Theorem calculateTemporalScore_le_calculateBaseScore
  (cvssStr : jsstring) (r : ValidationResult) :
  validate cvssStr = OK r ->
  exists t b, calculateTemporalScore cvssStr = OK t /\
              calculateBaseScore cvssStr = OK b /\
              t <= b.
Proof.
  intros H.
  destruct (calculateTemporalScore_OK _ H) as (t & b & Ht & Hb & _ & _ & L).
  exists t, b. auto.
Qed.

Lemma calculateTemporalScore_le_calculateBaseScore_witness :
  exists t b, calculateTemporalScore vector_temporal = OK t /\
              calculateBaseScore vector_temporal = OK b /\
              t <= b.
Proof.
  eapply calculateTemporalScore_le_calculateBaseScore.
  vm_compute. reflexivity.
Defined.

(* ----------------------------------------------------------------- *)
(** ** The version and the scores *)

Lemma calculateBaseResult_version_independent (body : jsstring) :
  calculateBaseResult (js "CVSS:3.0" ++ body)
  = calculateBaseResult (js "CVSS:3.1" ++ body).
Proof.
  pose proof (validate_version_independent body) as H.
  unfold calculateBaseResult.
  destruct (validate (js "CVSS:3.0" ++ body)) as [r0|e0];
    destruct (validate (js "CVSS:3.1" ++ body)) as [r1|e1];
    try contradiction; cbn [bind].
  - rewrite H. reflexivity.
  - rewrite H. reflexivity.
Qed.

Lemma calculateTemporalResult_version_independent (body : jsstring) :
  calculateTemporalResult (js "CVSS:3.0" ++ body)
  = calculateTemporalResult (js "CVSS:3.1" ++ body).
Proof.
  pose proof (validate_version_independent body) as H.
  unfold calculateTemporalResult.
  rewrite calculateBaseResult_version_independent.
  destruct (validate (js "CVSS:3.0" ++ body)) as [r0|e0];
    destruct (validate (js "CVSS:3.1" ++ body)) as [r1|e1];
    try contradiction; cbn [bind].
  - rewrite H. reflexivity.
  - rewrite H. reflexivity.
Qed.

(** C5.  When Modified Scope is Changed (MS has the value C),
    [calculateModifiedImpact] is
    7.52 * (MISS - 0.029) - 3.25 * (MISS * k - 0.02) ^ p with (k, p) = (1, 15)
    for the version string 3.0 and (0.9731, 13) for 3.1; and for every
    vector body, [calculateBaseScore] and [calculateTemporalScore] return the
    same result under the prefixes CVSS:3.0 and CVSS:3.1. *)
Theorem version_gates_only_calculateModifiedImpact
  (m : MetricsMap) (miss : Q) (body : jsstring) :
  get_is EnvironmentalMetric.MODIFIED_SCOPE "C" m = true ->
  calculateModifiedImpact m miss (Some (js "3.0"))
  = 7.52 * (miss - 0.029) - 3.25 * (miss * 1 - 0.02) ^ 15
  /\
  calculateModifiedImpact m miss (Some (js "3.1"))
  = 7.52 * (miss - 0.029) - 3.25 * (miss * 0.9731 - 0.02) ^ 13
  /\
  calculateBaseScore (js "CVSS:3.0" ++ body)
  = calculateBaseScore (js "CVSS:3.1" ++ body)
  /\
  calculateTemporalScore (js "CVSS:3.0" ++ body)
  = calculateTemporalScore (js "CVSS:3.1" ++ body).
Proof.
  intros C.
  assert (U : get_is EnvironmentalMetric.MODIFIED_SCOPE "U" m = false).
  { unfold get_is in *.
    destruct (get EnvironmentalMetric.MODIFIED_SCOPE m) as [v|];
      [|discriminate].
    apply jseqb_eq in C. subst v. reflexivity. }
  unfold calculateModifiedImpact, calculateBaseScore, calculateTemporalScore.
  rewrite U, calculateBaseResult_version_independent,
    calculateTemporalResult_version_independent.
  repeat split; reflexivity.
Qed.

Lemma version_gates_only_calculateModifiedImpact_witness :
  let m := [(EnvironmentalMetric.MODIFIED_SCOPE, js "C")] in
  let body := js "/AV:N/AC:L/PR:N/UI:N/S:C/C:H/I:H/A:H/E:F" in
  calculateModifiedImpact m 0.915 (Some (js "3.0"))
  = 7.52 * (0.915 - 0.029) - 3.25 * (0.915 * 1 - 0.02) ^ 15
  /\
  calculateModifiedImpact m 0.915 (Some (js "3.1"))
  = 7.52 * (0.915 - 0.029) - 3.25 * (0.915 * 0.9731 - 0.02) ^ 13
  /\
  calculateBaseScore (js "CVSS:3.0" ++ body)
  = calculateBaseScore (js "CVSS:3.1" ++ body)
  /\
  calculateTemporalScore (js "CVSS:3.0" ++ body)
  = calculateTemporalScore (js "CVSS:3.1" ++ body).
Proof.
  intros m body.
  apply version_gates_only_calculateModifiedImpact.
  vm_compute. reflexivity.
Defined.

(* ----------------------------------------------------------------- *)
(** ** Default population of the Environmental metrics *)

(** A metric without a counterpart: the iteration throws when the metric is
    unset and does nothing otherwise. *)
Lemma populate_requirement (m : MetricsMap) (metric : jsstring) :
  get metric modifiedMetricsMap = None ->
  populateEnvironmentalMetricDefault m metric =
  if unset metric m then Error (MissingModifiedMetric metric) else OK m.
Proof.
  intros Hn. unfold populateEnvironmentalMetricDefault, unset, get_is, has.
  rewrite Hn.
  destruct (get metric m) as [v|] eqn:E; cbn [negb].
  - rewrite E. destruct (jseqb v (js "X")); reflexivity.
  - rewrite get_set, jseqb_refl, jseqb_refl. reflexivity.
Qed.

(** A metric with a counterpart: the iteration stores its resolved value and
    touches nothing else. *)
Lemma populate_modified (m : MetricsMap) (metric : jsstring) :
  is_modified metric ->
  exists m', populateEnvironmentalMetricDefault m metric = OK m' /\
             forall k, get k m' =
                       if jseqb k metric then Some (resolved metric m)
                       else get k m.
Proof.
  intros (c & b & Hb & Hbn).
  assert (Hne : jseqb (c :: b) metric = false).
  { apply jseqb_neq. intros E0. rewrite E0 in Hbn. congruence. }
  unfold populateEnvironmentalMetricDefault, resolved, unset, get_is, has.
  rewrite Hb.
  destruct (get metric m) as [v|] eqn:E; cbn [negb].
  - rewrite E. destruct (jseqb v (js "X")) eqn:X.
    + eexists. split; [reflexivity|]. intros k. rewrite get_set. reflexivity.
    + eexists. split; [reflexivity|]. intros k.
      destruct (jseqb k metric) eqn:K; [|reflexivity].
      apply jseqb_eq in K; subst k. exact E.
  - rewrite get_set, jseqb_refl, jseqb_refl.
    eexists. split; [reflexivity|]. intros k.
    rewrite !get_set, Hne.
    destruct (jseqb k metric); reflexivity.
Qed.

Lemma resolved_ext (metric : jsstring) (m m' : MetricsMap) :
  get metric m' = get metric m ->
  (forall b, get metric modifiedMetricsMap = Some b -> get b m' = get b m) ->
  resolved metric m' = resolved metric m.
Proof.
  intros H1 H2. unfold resolved, unset. rewrite H1.
  destruct (get metric modifiedMetricsMap) as [b|]; [|reflexivity].
  rewrite (H2 b eq_refl). reflexivity.
Qed.

(** The loop over a list of distinct Modified metrics stores the resolved
    value of each, as read in the initial map, and touches nothing else. *)
Lemma populate_modified_list (l : list jsstring) (m : MetricsMap) :
  NoDup l -> (forall k, In k l -> is_modified k) ->
  exists m', reduceM populateEnvironmentalMetricDefault l m = OK m' /\
             forall k, get k m' =
                       if arr_includes k l then Some (resolved k m)
                       else get k m.
Proof.
  revert m; induction l as [|metric l IH]; intros m ND Hl.
  - exists m. split; reflexivity.
  - inversion ND as [|? ? Hnotin ND']; subst.
    destruct (@populate_modified m metric (Hl metric (or_introl eq_refl)))
      as [m1 [Hstep Hget1]].
    destruct (IH m1 ND' (fun k Hk => Hl k (or_intror Hk)))
      as [m' [Hrest Hget]].
    exists m'. split.
    + cbn [reduceM]. rewrite Hstep. exact Hrest.
    + intros k. rewrite Hget. unfold arr_includes; cbn [existsb].
      fold (arr_includes k l).
      destruct (arr_includes k l) eqn:Kl.
      * apply arr_includes_In in Kl.
        assert (Kne : jseqb k metric = false)
          by (apply jseqb_neq; intros E0; subst k; contradiction).
        rewrite Kne. cbn [orb]. f_equal. apply resolved_ext.
        -- rewrite Hget1, Kne. reflexivity.
        -- intros b Hb. rewrite Hget1.
           destruct (Hl metric (or_introl eq_refl)) as (c & b' & Hm & _).
           destruct (Hl k (or_intror Kl)) as (c0 & b0 & Hk & Hk0).
           assert (b = c0 :: b0) by congruence. subst b.
           replace (jseqb (c0 :: b0) metric) with false; [reflexivity|].
           symmetry. apply jseqb_neq. intros E0. rewrite E0 in Hk0.
           congruence.
      * rewrite orb_false_r. rewrite Hget1.
        destruct (jseqb k metric) eqn:K; [|reflexivity].
        apply jseqb_eq in K; subst k. reflexivity.
Qed.

Lemma modifiedMetrics_modified (k : jsstring) :
  In k modifiedMetrics -> is_modified k.
Proof.
  intros H. vm_compute in H.
  repeat (destruct H as [<-|H]; [eexists; eexists; split; reflexivity|]).
  destruct H.
Qed.

Lemma modifiedMetrics_NoDup : NoDup modifiedMetrics.
Proof.
  vm_compute. repeat constructor; simpl; intuition discriminate.
Qed.

(** The whole loop: it throws at the first unset Requirement metric, and
    otherwise goes on to the Modified metrics. *)
Lemma populateEnvironmentalMetricDefaults_requirements (m : MetricsMap) :
  populateEnvironmentalMetricDefaults m =
  if unset EnvironmentalMetric.AVAILABILITY_REQUIREMENT m
  then Error (MissingModifiedMetric
                EnvironmentalMetric.AVAILABILITY_REQUIREMENT)
  else if unset EnvironmentalMetric.CONFIDENTIALITY_REQUIREMENT m
  then Error (MissingModifiedMetric
                EnvironmentalMetric.CONFIDENTIALITY_REQUIREMENT)
  else if unset EnvironmentalMetric.INTEGRITY_REQUIREMENT m
  then Error (MissingModifiedMetric EnvironmentalMetric.INTEGRITY_REQUIREMENT)
  else reduceM populateEnvironmentalMetricDefault modifiedMetrics m.
Proof.
  unfold populateEnvironmentalMetricDefaults.
  change environmentalMetrics
    with ([EnvironmentalMetric.AVAILABILITY_REQUIREMENT;
           EnvironmentalMetric.CONFIDENTIALITY_REQUIREMENT;
           EnvironmentalMetric.INTEGRITY_REQUIREMENT] ++ modifiedMetrics).
  rewrite reduceM_app. cbn [reduceM].
  rewrite populate_requirement by reflexivity.
  destruct (unset EnvironmentalMetric.AVAILABILITY_REQUIREMENT m);
    [reflexivity|]. cbn [bind].
  rewrite populate_requirement by reflexivity.
  destruct (unset EnvironmentalMetric.CONFIDENTIALITY_REQUIREMENT m);
    [reflexivity|]. cbn [bind].
  rewrite populate_requirement by reflexivity.
  destruct (unset EnvironmentalMetric.INTEGRITY_REQUIREMENT m); reflexivity.
Qed.

(** What the fixed tables say of a Modified metric and its counterpart. *)
Lemma modifiedMetricsMap_facts (metric b : jsstring) :
  In (metric, b) modifiedMetricsMap ->
  get metric modifiedMetricsMap = Some b /\
  allowedValues metric = js "X" :: allowedValues b /\
  In b baseMetrics /\
  ~ In (js "X") (allowedValues b) /\
  In metric modifiedMetrics.
Proof.
  intros H. vm_compute in H.
  repeat (destruct H as [[= <- <-]|H];
          [repeat split; try reflexivity; vm_compute; intuition discriminate|]).
  destruct H.
Qed.

(** On a validated map, the resolved value of a Modified metric is a legal
    value of its Base counterpart. *)
Lemma resolved_legal (m : MetricsMap) (metric b : jsstring) :
  Validated m -> In (metric, b) modifiedMetricsMap ->
  In (resolved metric m) (allowedValues b).
Proof.
  intros V H.
  destruct (@modifiedMetricsMap_facts _ _ H) as (Hmm & Hal & Hbase & _ & _).
  destruct (@Validated_base m b V Hbase) as [bv [Hbv Lbv]].
  unfold resolved, unset. rewrite Hmm, Hbv.
  destruct (get metric m) as [v|] eqn:E; [|exact Lbv].
  destruct (jseqb v (js "X")) eqn:X; [exact Lbv|].
  pose proof (@validated_values _ V _ _ E) as L. rewrite Hal in L.
  destruct L as [L|L]; [|exact L].
  subst v. rewrite jseqb_refl in X. discriminate.
Qed.

(** After the default population of a validated map whose Requirement
    metrics are set, every Modified metric holds its resolved value. *)
Lemma populateEnvironmentalMetricDefaults_OK (m : MetricsMap) :
  unset EnvironmentalMetric.CONFIDENTIALITY_REQUIREMENT m = false ->
  unset EnvironmentalMetric.INTEGRITY_REQUIREMENT m = false ->
  unset EnvironmentalMetric.AVAILABILITY_REQUIREMENT m = false ->
  exists m', populateEnvironmentalMetricDefaults m = OK m' /\
             forall k, get k m' =
                       if arr_includes k modifiedMetrics
                       then Some (resolved k m)
                       else get k m.
Proof.
  intros Hc Hi Ha.
  rewrite populateEnvironmentalMetricDefaults_requirements, Ha, Hc, Hi.
  apply populate_modified_list.
  - apply modifiedMetrics_NoDup.
  - apply modifiedMetrics_modified.
Qed.

(** The weight lookup of a Modified metric succeeds on a map that holds
    legal values of the Base counterparts for the Modified metrics. *)
Lemma modified_weight (m' : MetricsMap) (metric b : jsstring) :
  In (metric, b) modifiedMetricsMap ->
  (forall k c, In (k, c) modifiedMetricsMap ->
               exists v, get k m' = Some v /\ In v (allowedValues c)) ->
  exists w, getMetricNumericValue metric m' = OK w /\ 0 <= w /\ w <= 1.
Proof.
  intros H G.
  destruct (G _ _ H) as [v [Hv Lv]].
  destruct (jseqb metric EnvironmentalMetric.MODIFIED_PRIVILEGES_REQUIRED)
    eqn:P.
  - apply jseqb_eq in P. subst metric.
    assert (b = BaseMetric.PRIVILEGES_REQUIRED).
    { destruct (@modifiedMetricsMap_facts _ _ H) as (Hmm & _).
      vm_compute in Hmm. injection Hmm as <-. reflexivity. }
    subst b.
    destruct (G EnvironmentalMetric.MODIFIED_SCOPE BaseMetric.SCOPE)
      as [s [Hs Ls]]; [vm_compute; tauto|].
    destruct (@getPrivilegesRequiredNumericValue_OK _ _ Lv Ls)
      as [w [Hw B]].
    exists w. split; [|lra].
    unfold getMetricNumericValue, getMetricValue.
    cbn [EnvironmentalMetric.MODIFIED_PRIVILEGES_REQUIRED js
           list_ascii_of_string List.map] in Hv |- *.
    rewrite Hv. cbn [bind]. rewrite jseqb_refl.
    replace (jseqb _ BaseMetric.PRIVILEGES_REQUIRED) with false
      by reflexivity.
    rewrite Hs. cbn [bind]. exact Hw.
  - assert (W : weights_within 0 1
                  (List.remove (list_eq_dec N.eq_dec)
                     EnvironmentalMetric.MODIFIED_PRIVILEGES_REQUIRED
                     modifiedMetrics)
                  (fun k => match get k modifiedMetricsMap with
                            | Some c => allowedValues c
                            | None => []
                            end) = true)
      by (vm_compute; reflexivity).
    destruct (@modifiedMetricsMap_facts _ _ H) as (Hmm & _ & _ & _ & Hin).
    destruct (@weights_within_spec _ _ _ _ W metric v) as [w [Hw B]].
    + apply in_in_remove; [|assumption].
      apply jseqb_neq, P.
    + rewrite Hmm. exact Lv.
    + exists w. split; [|assumption].
      apply getMetricNumericValue_table with (v := v); try assumption.
      apply jseqb_neq. intros ->.
      vm_compute in Hin. intuition discriminate.
Qed.

(** The four weights of the Modified exploitability are positive. *)
Lemma modified_weight_positive (m' : MetricsMap) (metric b : jsstring) :
  In (metric, b) (firstn 4 modifiedMetricsMap) ->
  (forall k c, In (k, c) modifiedMetricsMap ->
               exists v, get k m' = Some v /\ In v (allowedValues c)) ->
  exists w, getMetricNumericValue metric m' = OK w /\ 0 < w.
Proof.
  intros H G.
  assert (Hall : In (metric, b) modifiedMetricsMap)
    by (cbn [firstn modifiedMetricsMap In] in H |- *; tauto).
  destruct (G _ _ Hall) as [v [Hv Lv]].
  cbn [firstn modifiedMetricsMap] in H.
  destruct H as [E|[E|[E|[E|[]]]]]; injection E as <- <-.
  1,2,4:
    match type of Hv with
    | get ?key _ = _ =>
        destruct (@weights_within_spec 0.2 0.85
                    [EnvironmentalMetric.MODIFIED_ATTACK_VECTOR;
                     EnvironmentalMetric.MODIFIED_ATTACK_COMPLEXITY;
                     EnvironmentalMetric.MODIFIED_USER_INTERACTION]
                    (fun k0 => match get k0 modifiedMetricsMap with
                               | Some c => allowedValues c
                               | None => []
                               end) eq_refl key v
                    ltac:(vm_compute; tauto) Lv) as [w [Hw B]]
    end;
    exists w; (split; [|lra]);
    apply getMetricNumericValue_table with (v := v);
      (assumption || reflexivity).
  destruct (G EnvironmentalMetric.MODIFIED_SCOPE BaseMetric.SCOPE)
    as [s [Hs Ls]]; [vm_compute; tauto|].
  destruct (@getPrivilegesRequiredNumericValue_OK _ _ Lv Ls) as [w [Hw B]].
  exists w. split; [|lra].
  unfold getMetricNumericValue, getMetricValue.
  change (js "MPR") with EnvironmentalMetric.MODIFIED_PRIVILEGES_REQUIRED
    in Hv |- *.
  cbn [EnvironmentalMetric.MODIFIED_PRIVILEGES_REQUIRED js
         list_ascii_of_string List.map] in Hv |- *.
  rewrite Hv. cbn [bind]. rewrite jseqb_refl.
  replace (jseqb _ BaseMetric.PRIVILEGES_REQUIRED) with false by reflexivity.
  rewrite Hs. cbn [bind]. exact Hw.
Qed.

(** C10.  For every accepted vector whose CR, IR and AR are present with
    values other than X, [populateEnvironmentalMetricDefaults] returns a map
    without raising, and in that map every Modified metric holds a value
    that is not X: its own value if the vector gave it one other than X, and
    otherwise the value of its Base counterpart; the weight lookup
    [getMetricNumericValue] of every Modified metric succeeds on that map. *)
Theorem populateEnvironmentalMetricDefaults_resolves_Modified
  (cvssStr : jsstring) (r : ValidationResult) :
  validate cvssStr = OK r ->
  unset EnvironmentalMetric.CONFIDENTIALITY_REQUIREMENT (metricsMap r)
  = false ->
  unset EnvironmentalMetric.INTEGRITY_REQUIREMENT (metricsMap r) = false ->
  unset EnvironmentalMetric.AVAILABILITY_REQUIREMENT (metricsMap r) = false ->
  exists m',
    populateEnvironmentalMetricDefaults (metricsMap r) = OK m' /\
    forall metric b, In (metric, b) modifiedMetricsMap ->
      exists v w,
        get metric m' = Some v /\
        v <> js "X" /\
        (forall own, get metric (metricsMap r) = Some own ->
                     own <> js "X" -> v = own) /\
        (unset metric (metricsMap r) = true ->
         get b (metricsMap r) = Some v) /\
        getMetricNumericValue metric m' = OK w.
Proof.
  intros H Hc Hi Ha. destruct (validate_Validated _ H) as [V _].
  set (m := metricsMap r) in *.
  destruct (populateEnvironmentalMetricDefaults_OK _ Hc Hi Ha)
    as [m' [Hm' Hget]].
  exists m'. split; [exact Hm'|].
  assert (G : forall k c, In (k, c) modifiedMetricsMap ->
                          get k m' = Some (resolved k m) /\
                          In (resolved k m) (allowedValues c)).
  { intros k c Hk. split; [|apply resolved_legal; assumption].
    destruct (@modifiedMetricsMap_facts _ _ Hk) as (_ & _ & _ & _ & Hin).
    rewrite Hget. apply arr_includes_In in Hin. rewrite Hin. reflexivity. }
  intros metric b Hmb.
  destruct (G _ _ Hmb) as [Gv Gl].
  destruct (@modifiedMetricsMap_facts _ _ Hmb) as (Hmm & _ & Hbase & HX & _).
  destruct (@modified_weight m' metric b Hmb) as [w [Hw _]].
  { intros k c Hk. destruct (G _ _ Hk). eauto. }
  exists (resolved metric m), w. repeat split.
  - exact Gv.
  - intros E. rewrite E in Gl. contradiction.
  - intros own Hown Hne. unfold resolved, unset. rewrite Hown.
    replace (jseqb own (js "X")) with false; [reflexivity|].
    symmetry. apply jseqb_neq, Hne.
  - intros Hu. unfold resolved. rewrite Hu, Hmm.
    destruct (@Validated_base m b V Hbase) as [bv [Hbv _]].
    rewrite Hbv. reflexivity.
  - exact Hw.
Qed.

Lemma populateEnvironmentalMetricDefaults_resolves_Modified_witness :
  exists r m',
    validate vector_environmental = OK r /\
    populateEnvironmentalMetricDefaults (metricsMap r) = OK m' /\
    forall metric b, In (metric, b) modifiedMetricsMap ->
      exists v w,
        get metric m' = Some v /\
        v <> js "X" /\
        (forall own, get metric (metricsMap r) = Some own ->
                     own <> js "X" -> v = own) /\
        (unset metric (metricsMap r) = true ->
         get b (metricsMap r) = Some v) /\
        getMetricNumericValue metric m' = OK w.
Proof.
  eexists.
  assert (V : validate vector_environmental = OK _)
    by (vm_compute; reflexivity).
  destruct (populateEnvironmentalMetricDefaults_resolves_Modified
              vector_environmental V)
    as [m' P]; try (vm_compute; reflexivity).
  exists m'. split; [exact V | exact P].
Defined.

(* ----------------------------------------------------------------- *)
(** ** The Environmental score *)

(** C1 (the code departs from the claim).  On every accepted vector in which
    one of the Requirement metrics AR, CR, IR is absent or has the value X,
    [calculateEnvironmentalScore] raises [MissingModifiedMetric] for the
    first such metric in the order AR, CR, IR: the default population looks
    up a Modified-counterpart for it, finds none and throws, instead of
    leaving the value X in place. *)
Theorem calculateEnvironmentalScore_raises_MissingModifiedMetric
  (cvssStr : jsstring) (r : ValidationResult) :
  validate cvssStr = OK r ->
  unset EnvironmentalMetric.AVAILABILITY_REQUIREMENT (metricsMap r)
  || unset EnvironmentalMetric.CONFIDENTIALITY_REQUIREMENT (metricsMap r)
  || unset EnvironmentalMetric.INTEGRITY_REQUIREMENT (metricsMap r) = true ->
  exists metric,
    In metric requirementMetrics /\
    unset metric (metricsMap r) = true /\
    calculateEnvironmentalScore cvssStr
    = Error (MissingModifiedMetric metric).
Proof.
  intros H U.
  unfold calculateEnvironmentalScore, calculateEnvironmentalResult.
  rewrite H. cbn [bind].
  rewrite populateEnvironmentalMetricDefaults_requirements.
  rewrite !unset_populateTemporalMetricDefaults by reflexivity.
  destruct (unset EnvironmentalMetric.AVAILABILITY_REQUIREMENT _) eqn:A.
  { eexists. split; [|split; [exact A | reflexivity]]. vm_compute; tauto. }
  destruct (unset EnvironmentalMetric.CONFIDENTIALITY_REQUIREMENT _) eqn:C.
  { eexists. split; [|split; [exact C | reflexivity]]. vm_compute; tauto. }
  destruct (unset EnvironmentalMetric.INTEGRITY_REQUIREMENT _) eqn:I.
  { eexists. split; [|split; [exact I | reflexivity]]. vm_compute; tauto. }
  discriminate U.
Qed.

Lemma calculateEnvironmentalScore_raises_MissingModifiedMetric_witness :
  exists r metric,
    validate vector_unchanged = OK r /\
    In metric requirementMetrics /\
    unset metric (metricsMap r) = true /\
    calculateEnvironmentalScore vector_unchanged
    = Error (MissingModifiedMetric metric).
Proof.
  eexists.
  assert (V : validate vector_unchanged = OK _) by (vm_compute; reflexivity).
  destruct (calculateEnvironmentalScore_raises_MissingModifiedMetric
              vector_unchanged V) as [metric P]; [vm_compute; reflexivity|].
  exists metric. split; [exact V | exact P].
Defined.

(** For every accepted vector whose CR, IR and AR are present with values
    other than X, [calculateEnvironmentalScore] returns a score. *)
Lemma calculateEnvironmentalScore_OK (cvssStr : jsstring)
  (r : ValidationResult) :
  validate cvssStr = OK r ->
  unset EnvironmentalMetric.CONFIDENTIALITY_REQUIREMENT (metricsMap r)
  = false ->
  unset EnvironmentalMetric.INTEGRITY_REQUIREMENT (metricsMap r) = false ->
  unset EnvironmentalMetric.AVAILABILITY_REQUIREMENT (metricsMap r) = false ->
  exists e, calculateEnvironmentalScore cvssStr = OK e /\ is_score e.
Proof.
  intros H Hc Hi Ha. destruct (validate_Validated _ H) as [V Hver].
  set (m := metricsMap r) in *.
  set (m1 := populateTemporalMetricDefaults m).
  assert (G1 : forall k, arr_includes k temporalMetrics = false ->
                         get k m1 = get k m).
  { intros k Hk. unfold m1.
    rewrite get_populateTemporalMetricDefaults, Hk.
    destruct (get k m); reflexivity. }
  destruct (@populateEnvironmentalMetricDefaults_OK m1) as [m' [Hm' Hget]];
    try (unfold m1; rewrite unset_populateTemporalMetricDefaults;
         [assumption | reflexivity]).
  (* the Modified metrics of the populated map *)
  assert (G : forall k c, In (k, c) modifiedMetricsMap ->
                          exists v, get k m' = Some v /\
                                    In v (allowedValues c)).
  { intros k c Hk.
    destruct (@modifiedMetricsMap_facts _ _ Hk) as (Hmm & _ & Hb & _ & Hin).
    exists (resolved k m). split; [|apply resolved_legal; assumption].
    rewrite Hget. apply arr_includes_In in Hin. rewrite Hin. f_equal.
    apply resolved_ext.
    - apply G1. for_each_entry Hk.
    - intros b0 Hb0. rewrite Hmm in Hb0. injection Hb0 as <-.
      apply G1. for_each_entry Hk. }
  (* the Requirement metrics of the populated map *)
  assert (R : forall k, In k requirementMetrics -> unset k m = false ->
              exists w, getMetricNumericValue k m' = OK w /\
                        0.5 <= w /\ w <= 1.5).
  { intros k Hk Hu.
    assert (W : weights_within 0.5 1.5 requirementMetrics allowedValues
                = true) by (vm_compute; reflexivity).
    unfold unset in Hu. destruct (get k m) as [v|] eqn:E; [|discriminate].
    apply (@weight_of_legal _ _ _ m' k v W Hk).
    - rewrite Hget.
      replace (arr_includes k modifiedMetrics) with false
        by for_each_member Hk.
      rewrite G1; [exact E | for_each_member Hk].
    - apply (@validated_values _ V _ _ E).
    - for_each_member Hk.
    - for_each_member Hk. }
  (* the Temporal metrics of the populated map *)
  assert (T : forall t, In t temporalMetrics ->
              exists w, getMetricNumericValue t m' = OK w /\
                        0.91 <= w /\ w <= 1).
  { intros t Ht.
    destruct (@temporal_weight m t V Ht) as [w [Hw B]].
    exists w. split; [|assumption]. fold m1 in Hw.
    assert (E : get t m' = get t m1).
    { rewrite Hget.
      replace (arr_includes t modifiedMetrics) with false; [reflexivity|].
      for_each_member Ht. }
    assert (P : jseqb t BaseMetric.PRIVILEGES_REQUIRED = false)
      by for_each_member Ht.
    assert (P' : jseqb t EnvironmentalMetric.MODIFIED_PRIVILEGES_REQUIRED
                 = false)
      by for_each_member Ht.
    unfold getMetricNumericValue, getMetricValue in Hw |- *.
    rewrite E, P, P'. rewrite P, P' in Hw. exact Hw. }
  unfold calculateEnvironmentalScore, calculateEnvironmentalResult.
  rewrite H. cbn [bind]. fold m. fold m1. rewrite Hm'. cbn [bind].
  (* MISS *)
  unfold calculateMiss.
  destruct (R EnvironmentalMetric.CONFIDENTIALITY_REQUIREMENT)
    as [rc [-> _]]; [vm_compute; tauto | assumption |]. cbn [bind].
  destruct (@modified_weight m' EnvironmentalMetric.MODIFIED_CONFIDENTIALITY
              BaseMetric.CONFIDENTIALITY)
    as [mc [-> _]]; [vm_compute; tauto | exact G |]. cbn [bind].
  destruct (R EnvironmentalMetric.INTEGRITY_REQUIREMENT)
    as [ri [-> _]]; [vm_compute; tauto | assumption |]. cbn [bind].
  destruct (@modified_weight m' EnvironmentalMetric.MODIFIED_INTEGRITY
              BaseMetric.INTEGRITY)
    as [mi [-> _]]; [vm_compute; tauto | exact G |]. cbn [bind].
  destruct (R EnvironmentalMetric.AVAILABILITY_REQUIREMENT)
    as [ra [-> _]]; [vm_compute; tauto | assumption |]. cbn [bind].
  destruct (@modified_weight m' EnvironmentalMetric.MODIFIED_AVAILABILITY
              BaseMetric.AVAILABILITY)
    as [ma [-> _]]; [vm_compute; tauto | exact G |]. cbn [bind].
  replace (truthy (versionStr r)) with true
    by (destruct Hver as [-> | ->]; reflexivity).
  cbn [negb].
  (* the Modified exploitability *)
  unfold calculateModifiedExploitability.
  destruct (@modified_weight_positive m'
              EnvironmentalMetric.MODIFIED_ATTACK_VECTOR
              BaseMetric.ATTACK_VECTOR)
    as [av [-> Pav]]; [vm_compute; tauto | exact G |]. cbn [bind].
  destruct (@modified_weight_positive m'
              EnvironmentalMetric.MODIFIED_ATTACK_COMPLEXITY
              BaseMetric.ATTACK_COMPLEXITY)
    as [ac [-> Pac]]; [vm_compute; tauto | exact G |]. cbn [bind].
  destruct (@modified_weight_positive m'
              EnvironmentalMetric.MODIFIED_PRIVILEGES_REQUIRED
              BaseMetric.PRIVILEGES_REQUIRED)
    as [pr [-> Ppr]]; [vm_compute; tauto | exact G |]. cbn [bind].
  destruct (@modified_weight_positive m'
              EnvironmentalMetric.MODIFIED_USER_INTERACTION
              BaseMetric.USER_INTERACTION)
    as [ui [-> Pui]]; [vm_compute; tauto | exact G |]. cbn [bind].
  assert (Pe : 0 < 8.22 * av * ac * pr * ui).
  { assert (0 < 8.22 * av) by lra.
    assert (0 < 8.22 * av * ac) by nra.
    assert (0 < 8.22 * av * ac * pr) by nra.
    nra. }
  set (e := 8.22 * av * ac * pr * ui) in *.
  set (imp := calculateModifiedImpact m' _ (versionStr r)).
  (* the score *)
  unfold temporalProduct.
  destruct (T TemporalMetric.EXPLOIT_CODE_MATURITY)
    as [we [-> Be]]; [vm_compute; tauto|].
  destruct (T TemporalMetric.REMEDIATION_LEVEL)
    as [wl [-> Bl]]; [vm_compute; tauto|].
  destruct (T TemporalMetric.REPORT_CONFIDENCE)
    as [wc [-> Bc]]; [vm_compute; tauto|].
  cbn [bind].
  destruct (nonpositive imp) eqn:N; cbn [bind score].
  { eexists. split; [reflexivity | apply is_score_0]. }
  apply nonpositive_false in N.
  destruct (get_is EnvironmentalMetric.MODIFIED_SCOPE "U" m');
    cbn [bind score]; (eexists; split; [reflexivity|]);
    apply roundUp_damped; try lra;
    apply roundUp_capped_is_score; lra.
Qed.

Example calculateEnvironmentalScore_with_requirements :
  returns (calculateEnvironmentalScore vector_environmental) 8.8.
Proof. vm_compute. reflexivity. Qed.

(** C2 (the code departs from the claim).  The vector
    CVSS:3.1/AV:N/AC:L/PR:N/UI:N/S:U/C:H/I:H/A:H is accepted by [validate],
    its Base score and its Temporal score are 9.8, and
    [calculateEnvironmentalScore] raises [MissingModifiedMetric] for AR on it
    instead of returning a number. *)
Theorem calculateEnvironmentalScore_no_score_on_base_vector :
  (exists r, validate vector_unchanged = OK r) /\
  returns (calculateBaseScore vector_unchanged) 9.8 /\
  returns (calculateTemporalScore vector_unchanged) 9.8 /\
  calculateEnvironmentalScore vector_unchanged
  = Error (MissingModifiedMetric EnvironmentalMetric.AVAILABILITY_REQUIREMENT).
Proof.
  split; [eexists; vm_compute; reflexivity|].
  split; [vm_compute; reflexivity|].
  split; vm_compute; reflexivity.
Qed.

(* ================================================================= *)
(** * Further properties *)

(* ----------------------------------------------------------------- *)
(** ** Labels *)

(** A multiple of one tenth above [n] tenths is at least [n + 1] tenths. *)
Lemma tenth_gap (q : Q) (n : Z) :
  is_tenth q -> inject_Z n / 10 < q -> inject_Z (n + 1) / 10 <= q.
Proof.
  intros [k Hk] H.
  assert (L : (n < k)%Z) by (rewrite Zlt_Qlt; undiv; lra).
  assert (L' : (n + 1 <= k)%Z) by lia.
  rewrite Zle_Qle in L'. undiv. lra.
Qed.

(** Two different labels cannot be equal. *)
Ltac labels :=
  repeat split; intros;
  try match goal with
      | H : js _ = js _ |- _ => vm_compute in H; discriminate H
      end;
  try reflexivity; try lra.

(** On scores, which are multiples of one tenth, [humanizeScore] gives the
    bands None for 0, Low for 0.1 to 3.9, Medium for 4.0 to 6.9, High for
    7.0 to 8.9 and Critical from 9.0 on. *)
Theorem humanizeScore_bands (q : Q) :
  is_tenth q ->
  (humanizeScore q = js "None" <-> q <= 0) /\
  (humanizeScore q = js "Low" <-> 0 < q /\ q < 4) /\
  (humanizeScore q = js "Medium" <-> 4 <= q /\ q < 7) /\
  (humanizeScore q = js "High" <-> 7 <= q /\ q < 9) /\
  (humanizeScore q = js "Critical" <-> 9 <= q).
Proof.
  intros T.
  pose proof (@tenth_gap q 39 T) as G4.
  pose proof (@tenth_gap q 69 T) as G7.
  pose proof (@tenth_gap q 89 T) as G9.
  change (inject_Z 39 / 10) with (39 # 10) in G4.
  change (inject_Z (39 + 1) / 10) with (40 # 10) in G4.
  change (inject_Z 69 / 10) with (69 # 10) in G7.
  change (inject_Z (69 + 1) / 10) with (70 # 10) in G7.
  change (inject_Z 89 / 10) with (89 # 10) in G9.
  change (inject_Z (89 + 1) / 10) with (90 # 10) in G9.
  unfold humanizeScore.
  destruct (Qle_bool q 0) eqn:B0;
    [apply Qle_bool_iff in B0
    |assert (P0 : 0 < q)
       by (apply Qnot_le_lt; intros L; apply Qle_bool_iff in L; congruence)].
  { labels. }
  destruct (Qle_bool q 3.9) eqn:B1;
    [apply Qle_bool_iff in B1
    |assert (P1 : 3.9 < q)
       by (apply Qnot_le_lt; intros L; apply Qle_bool_iff in L; congruence)].
  { labels. }
  specialize (G4 ltac:(lra)).
  destruct (Qle_bool q 6.9) eqn:B2;
    [apply Qle_bool_iff in B2
    |assert (P2 : 6.9 < q)
       by (apply Qnot_le_lt; intros L; apply Qle_bool_iff in L; congruence)].
  { labels. }
  specialize (G7 ltac:(lra)).
  destruct (Qle_bool q 8.9) eqn:B3;
    [apply Qle_bool_iff in B3
    |assert (P3 : 8.9 < q)
       by (apply Qnot_le_lt; intros L; apply Qle_bool_iff in L; congruence)].
  { labels. }
  specialize (G9 ltac:(lra)).
  labels.
Qed.

Lemma humanizeScore_bands_witness :
  (humanizeScore 3.9 = js "None" <-> 3.9 <= 0) /\
  (humanizeScore 3.9 = js "Low" <-> 0 < 3.9 /\ 3.9 < 4) /\
  (humanizeScore 3.9 = js "Medium" <-> 4 <= 3.9 /\ 3.9 < 7) /\
  (humanizeScore 3.9 = js "High" <-> 7 <= 3.9 /\ 3.9 < 9) /\
  (humanizeScore 3.9 = js "Critical" <-> 9 <= 3.9).
Proof.
  apply humanizeScore_bands. exists 39%Z. reflexivity.
Defined.

(** [humanizeBaseMetric] answers Unknown exactly for the strings that are
    not one of the eight Base metric codes: the Temporal and Environmental
    metric codes have no label. *)
Theorem humanizeBaseMetric_Unknown (metric : jsstring) :
  humanizeBaseMetric metric = js "Unknown" <-> ~ In metric baseMetrics.
Proof.
  split.
  - intros H Hin. vm_compute in Hin.
    repeat (destruct Hin as [<-|Hin]; [vm_compute in H; discriminate H|]).
    destruct Hin.
  - intros Hn. unfold humanizeBaseMetric.
    repeat match goal with
           | |- context [jseqb metric ?b] =>
               destruct (jseqb metric b) eqn:E;
               [apply jseqb_eq in E; subst metric;
                exfalso; apply Hn; vm_compute; tauto
               |clear E]
           end.
    reflexivity.
Qed.

(** Every legal value of a Base metric has a label other than Unknown, and
    two legal values of the same Base metric have different labels. *)
Theorem humanizeBaseMetricValue_legal (metric v : jsstring) :
  In metric baseMetrics -> In v (allowedValues metric) ->
  humanizeBaseMetricValue v metric <> js "Unknown" /\
  (forall v', In v' (allowedValues metric) ->
              humanizeBaseMetricValue v' metric
              = humanizeBaseMetricValue v metric ->
              v' = v).
Proof.
  intros Hm Hv. vm_compute in Hm.
  repeat (destruct Hm as [<-|Hm];
          [vm_compute in Hv;
           repeat (destruct Hv as [<-|Hv];
                   [split; [vm_compute; discriminate|];
                    intros v' Hv' E; vm_compute in Hv';
                    repeat (destruct Hv' as [<-|Hv'];
                            [first [reflexivity
                                   | vm_compute in E; discriminate E]|]);
                    destruct Hv'
                   |]);
           destruct Hv|]).
  destruct Hm.
Qed.

Lemma humanizeBaseMetricValue_legal_witness :
  humanizeBaseMetricValue (js "L") BaseMetric.ATTACK_VECTOR <> js "Unknown" /\
  (forall v', In v' (allowedValues BaseMetric.ATTACK_VECTOR) ->
              humanizeBaseMetricValue v' BaseMetric.ATTACK_VECTOR
              = humanizeBaseMetricValue (js "L") BaseMetric.ATTACK_VECTOR ->
              v' = js "L").
Proof.
  apply humanizeBaseMetricValue_legal; vm_compute; tauto.
Defined.

(* ----------------------------------------------------------------- *)
(** ** The parser: version and vector *)

Lemma strip_prefix_Some (p s r : jsstring) :
  strip_prefix p s = Some r -> s = p ++ r.
Proof.
  revert s; induction p as [|x p IH]; intros [|y s]; simpl;
    try discriminate; try (intros [= <-]; reflexivity).
  destruct (N.eqb x y) eqn:E; [|discriminate].
  apply N.eqb_eq in E. subst y. intros H. rewrite (IH _ H). reflexivity.
Qed.

(** When [parseVersion] finds a version, the input is made of CVSS:, the
    version and a remainder without line terminator, and the version is a
    digit or a digit, a dot and a digit. *)
Theorem parseVersion_shape (cvssStr v : jsstring) :
  parseVersion cvssStr = Some v ->
  exists rest,
    cvssStr = js "CVSS:" ++ v ++ rest /\
    no_line_terminator rest = true /\
    exists d, isDigit d = true /\
              (v = [d] \/
               exists d2, isDigit d2 = true /\ v = [d; 46%N; d2]).
Proof.
  unfold parseVersion, VERSION_REGEX_exec.
  destruct (strip_prefix (js "CVSS:") cvssStr) as [[|d r]|] eqn:P;
    try discriminate.
  apply strip_prefix_Some in P. subst cvssStr.
  destruct (isDigit d) eqn:D; [|discriminate].
  assert (R : forall r0 g, regex_rest r0 = Some g ->
                           no_line_terminator r0 = true).
  { intros r0 g. unfold regex_rest, no_line_terminator.
    destruct (forallb _ r0); [reflexivity | discriminate]. }
  unfold version_alternatives.
  destruct r as [|dot [|d2 r2]]; cbn [first_match].
  1,2: match goal with
       | |- context [regex_rest ?x] =>
           destruct (regex_rest x) as [g|] eqn:G; [|discriminate];
           intros [= <-]; exists x;
           (split; [reflexivity|]); (split; [apply (R _ _ G)|]);
           exists d; auto
       end.
  destruct (N.eqb dot 46 && isDigit d2) eqn:A; cbn [first_match].
  - apply andb_true_iff in A. destruct A as [A1 A2].
    apply N.eqb_eq in A1. subst dot.
    destruct (regex_rest r2) as [g|] eqn:G.
    + intros [= <-]. exists r2.
      split; [reflexivity|]. split; [apply (R _ _ G)|].
      exists d. split; [assumption|]. right. exists d2. auto.
    + destruct (regex_rest (46%N :: d2 :: r2)) as [g|] eqn:G';
        [|discriminate].
      intros [= <-]. exists (46%N :: d2 :: r2).
      split; [reflexivity|]. split; [apply (R _ _ G')|].
      exists d. auto.
  - destruct (regex_rest (dot :: d2 :: r2)) as [g|] eqn:G; [|discriminate].
    intros [= <-]. exists (dot :: d2 :: r2).
    split; [reflexivity|]. split; [apply (R _ _ G)|].
    exists d. auto.
Qed.

Lemma parseVersion_shape_witness :
  exists rest,
    vector_low = js "CVSS:" ++ js "3.0" ++ rest /\
    no_line_terminator rest = true /\
    exists d, isDigit d = true /\
              (js "3.0" = [d] \/
               exists d2, isDigit d2 = true /\ js "3.0" = [d; 46%N; d2]).
Proof.
  apply parseVersion_shape. vm_compute. reflexivity.
Defined.

(** [validate] reads its input through the prefix test, [parseVersion] and
    [parseVector] only. *)
Lemma validate_ext (s1 s2 : jsstring) :
  startsWith (js "CVSS:") s1 = startsWith (js "CVSS:") s2 ->
  parseVersion s1 = parseVersion s2 ->
  parseVector s1 = parseVector s2 ->
  validate s1 = validate s2.
Proof.
  intros H1 H2 H3. unfold validate, parseMetricsAsMap.
  rewrite H1, H2, H3. reflexivity.
Qed.

(** The code unit that follows the version 3.0 or 3.1 is dropped without
    being looked at: any code unit other than a line terminator does as well
    as the slash. *)
Theorem validate_ignores_separator (c : N) (body : jsstring) :
  isLineTerminator c = false ->
  validate (js "CVSS:3.0" ++ c :: body) = validate (js "CVSS:3.0/" ++ body)
  /\
  validate (js "CVSS:3.1" ++ c :: body) = validate (js "CVSS:3.1/" ++ body).
Proof.
  intros L.
  assert (R : regex_rest (c :: body) = regex_rest (SLASH :: body)
              \/ exists g, regex_rest (c :: body) = Some (Some (c :: g)) /\
                           regex_rest (SLASH :: body)
                           = Some (Some (SLASH :: g)) /\ g = body).
  { unfold regex_rest. cbn [forallb]. rewrite L.
    replace (isLineTerminator SLASH) with false by reflexivity.
    cbn [negb andb]. destruct (forallb _ body); eauto. }
  assert (E : forall d, isDigit d = true ->
              validate (js "CVSS:3." ++ d :: c :: body)
              = validate (js "CVSS:3." ++ d :: SLASH :: body)).
  { intros d D. apply validate_ext.
    - reflexivity.
    - unfold parseVersion.
      rewrite (@VERSION_REGEX_exec_3 d (c :: body) D),
        (@VERSION_REGEX_exec_3 d (SLASH :: body) D).
      destruct R as [-> | (g & -> & -> & _)]; reflexivity.
    - unfold parseVector.
      rewrite (@VERSION_REGEX_exec_3 d (c :: body) D),
        (@VERSION_REGEX_exec_3 d (SLASH :: body) D).
      destruct R as [-> | (g & -> & -> & _)]; reflexivity. }
  split; [apply (E 48%N eq_refl) | apply (E 49%N eq_refl)].
Qed.

Lemma validate_ignores_separator_witness :
  let body := js "AV:N/AC:L/PR:N/UI:N/S:U/C:H/I:H/A:H" in
  validate (js "CVSS:3.0" ++ 88%N :: body) = validate (js "CVSS:3.0/" ++ body)
  /\
  validate (js "CVSS:3.1" ++ 88%N :: body) = validate (js "CVSS:3.1/" ++ body).
Proof.
  intros body. apply validate_ignores_separator. reflexivity.
Defined.

(* ----------------------------------------------------------------- *)
(** ** The parser: the map *)

Lemma set_absent (V : Type) (m : assoc V) (k : jsstring) (v : V) :
  has k m = false -> set k v m = m ++ [(k, v)].
Proof.
  unfold has. induction m as [|[k0 v0] m IH]; simpl; [reflexivity|].
  destruct (jseqb k k0); [discriminate|].
  intros H. rewrite (IH H). reflexivity.
Qed.

Lemma keys_app (V : Type) (m1 m2 : assoc V) :
  keys (m1 ++ m2) = keys m1 ++ keys m2.
Proof. unfold keys. apply map_app. Qed.

(** The fold of [parseMetricsAsMap] appends the parsed segments to the map
    in their order, and throws at the first one whose key is already
    there. *)
Lemma reduce_pairs (metrics : list KeyValue) (init : MetricsMap) :
  match
    reduceM
      (fun (res : MetricsMap) (metric : KeyValue) =>
         if has (key metric) res
         then Error (DuplicateMetric (key metric) (value metric))
         else OK (set (key metric) (value metric) res))
      metrics init
  with
  | OK m =>
      m = init ++ List.map pair_of metrics /\
      (forall kv, In kv metrics -> ~ In (key kv) (keys init)) /\
      NoDup (List.map key metrics)
  | Error e =>
      exists kv, In kv metrics /\
                 e = DuplicateMetric (key kv) (value kv) /\
                 (In (key kv) (keys init) \/ ~ NoDup (List.map key metrics))
  end.
Proof.
  revert init; induction metrics as [|kv metrics IH]; intros init;
    cbn [reduceM].
  - split; [symmetry; apply app_nil_r|]. split; [intros kv []|constructor].
  - destruct (has (key kv) init) eqn:Hk; cbn [bind].
    + exists kv. split; [left; reflexivity|]. split; [reflexivity|].
      left. apply has_In_keys, Hk.
    + rewrite (@set_absent _ _ _ (value kv) Hk).
      assert (Hnk : ~ In (key kv) (keys init)).
      { intros H. apply In_keys_has in H. congruence. }
      set (init' := init ++ [(key kv, value kv)]).
      specialize (IH init').
      match goal with
      | |- context [reduceM ?f metrics init'] =>
          destruct (reduceM f metrics init') as [m|e]
      end; subst init'; change [(key kv, value kv)] with [pair_of kv] in IH.
      * destruct IH as (Hm & Hfresh & Hnd).
        assert (F : forall kv', In kv' metrics ->
                      ~ In (key kv') (keys init) /\ key kv' <> key kv).
        { intros kv' H'. specialize (Hfresh kv' H').
          rewrite keys_app, in_app_iff in Hfresh. cbn in Hfresh.
          split; [tauto|]. intros E. apply Hfresh. right. left.
          symmetry; exact E. }
        split; [rewrite Hm, <- app_assoc; reflexivity|]. split.
        -- intros kv' [<-|H']; [assumption | apply (F kv' H')].
        -- cbn [List.map]. constructor; [|assumption].
           intros H. apply in_map_iff in H. destruct H as (kv' & E & H').
           apply (proj2 (F kv' H')). exact E.
      * destruct IH as (kv' & H' & -> & D).
        exists kv'. split; [right; assumption|]. split; [reflexivity|].
        rewrite keys_app, in_app_iff in D. cbn in D.
        destruct D as [[D|[D|[]]]|D].
        -- left; assumption.
        -- right. intros ND. cbn [List.map] in ND.
           inversion ND as [|? ? Hn _]; subst. apply Hn.
           rewrite D. apply in_map. assumption.
        -- right. intros ND. cbn [List.map] in ND.
           inversion ND; subst. contradiction.
Qed.

(** The map that [parseMetricsAsMap] returns holds the parsed segments of
    the vector body in their order, one entry for each; its keys are
    pairwise different, and no key and no value is the empty string. *)
Theorem parseMetricsAsMap_OK (cvssStr : jsstring) (m : MetricsMap) :
  parseMetricsAsMap cvssStr = OK m ->
  exists metrics,
    parseMetrics (vectorBody cvssStr) = OK metrics /\
    m = List.map pair_of metrics /\
    NoDup (keys m) /\
    forall k v, In (k, v) m -> k <> [] /\ v <> [].
Proof.
  unfold parseMetricsAsMap. fold (vectorBody cvssStr).
  destruct (parseMetrics (vectorBody cvssStr)) as [metrics|] eqn:E;
    cbn [bind]; [|discriminate].
  pose proof (reduce_pairs metrics []) as R.
  match type of R with
  | match ?X with _ => _ end => destruct X as [m0|]; [|discriminate]
  end.
  intros [= <-]. destruct R as (Hm & _ & Hnd). cbn [app] in Hm.
  exists metrics. split; [reflexivity|]. split; [assumption|]. split.
  - subst m0. unfold keys. rewrite map_map. exact Hnd.
  - intros k v H. subst m0. apply in_map_iff in H.
    destruct H as (kv & [= <- <-] & Hkv).
    destruct (mapM_OK _ _ E _ Hkv) as (seg & _ & Hseg).
    apply (parseMetric_OK _ Hseg).
Qed.

Lemma parseMetricsAsMap_OK_witness :
  exists m metrics,
    parseMetricsAsMap vector_low = OK m /\
    parseMetrics (vectorBody vector_low) = OK metrics /\
    m = List.map pair_of metrics /\
    NoDup (keys m) /\
    forall k v, In (k, v) m -> k <> [] /\ v <> [].
Proof.
  eexists.
  assert (P : parseMetricsAsMap vector_low = OK _)
    by (vm_compute; reflexivity).
  destruct (parseMetricsAsMap_OK _ P) as [metrics H].
  exists metrics. split; [exact P | exact H].
Defined.

(** When every segment of the vector body is well formed, the parser
    returns a map if the keys of the segments are pairwise different, and
    raises [DuplicateMetric] for one of the segments if a key occurs
    twice: a later value never overwrites an earlier one. *)
Theorem parseMetricsAsMap_duplicates (cvssStr : jsstring)
  (metrics : list KeyValue) :
  parseMetrics (vectorBody cvssStr) = OK metrics ->
  (NoDup (List.map key metrics) ->
   parseMetricsAsMap cvssStr = OK (List.map pair_of metrics)) /\
  (~ NoDup (List.map key metrics) ->
   exists kv, In kv metrics /\
              parseMetricsAsMap cvssStr
              = Error (DuplicateMetric (key kv) (value kv))).
Proof.
  intros E. unfold parseMetricsAsMap. fold (vectorBody cvssStr).
  rewrite E. cbn [bind].
  pose proof (reduce_pairs metrics []) as R.
  match type of R with
  | match ?X with _ => _ end => destruct X as [m0|e]
  end.
  - destruct R as (Hm & _ & Hnd). cbn [app] in Hm. subst m0.
    split; [reflexivity | contradiction].
  - destruct R as (kv & Hkv & -> & [[]|D]).
    split; [contradiction|]. intros _. exists kv. auto.
Qed.

Lemma parseMetricsAsMap_duplicates_witness :
  let cvssStr := js "CVSS:3.1/AV:N/AV:L/AC:L/PR:N/UI:N/S:U/C:H/I:H/A:H" in
  exists metrics,
    parseMetrics (vectorBody cvssStr) = OK metrics /\
    (NoDup (List.map key metrics) ->
     parseMetricsAsMap cvssStr = OK (List.map pair_of metrics)) /\
    (~ NoDup (List.map key metrics) ->
     exists kv, In kv metrics /\
                parseMetricsAsMap cvssStr
                = Error (DuplicateMetric (key kv) (value kv))).
Proof.
  intros cvssStr. eexists.
  assert (P : parseMetrics (vectorBody cvssStr) = OK _)
    by (vm_compute; reflexivity).
  split; [exact P|]. apply (parseMetricsAsMap_duplicates _ P).
Defined.

(* ----------------------------------------------------------------- *)
(** ** The validator: what an accepted vector is *)

(** An accepted vector starts with CVSS:, its version is 3.0 or 3.1, its map
    holds a legal value for each of the eight Base metrics, every key of
    the map is one of the 22 known metric codes and has a legal value, and
    the keys are pairwise different, so that the map has at most 22
    entries. *)
Theorem validate_accepts_only_valid (cvssStr : jsstring)
  (r : ValidationResult) :
  validate cvssStr = OK r ->
  startsWith (js "CVSS:") cvssStr = true /\
  (versionStr r = Some (js "3.0") \/ versionStr r = Some (js "3.1")) /\
  (forall b, In b baseMetrics ->
             exists v, get b (metricsMap r) = Some v /\
                       In v (allowedValues b)) /\
  (forall k v, get k (metricsMap r) = Some v ->
               In k allKnownMetrics /\ In v (allowedValues k)) /\
  NoDup (keys (metricsMap r)) /\
  (List.length (metricsMap r) <= 22)%nat.
Proof.
  intros H. destruct (validate_Validated _ H) as [V Hver].
  destruct (validate_OK_inv _ H) as (Hp & _ & _ & Hparse & _).
  destruct (parseMetricsAsMap_OK _ Hparse) as (metrics & _ & _ & ND & _).
  split; [assumption|]. split; [assumption|]. split.
  { intros b Hb. apply (Validated_base V Hb). }
  split.
  { intros k v G. split; [|apply (@validated_values _ V _ _ G)].
    apply (@validated_known _ V). apply has_get. eauto. }
  split; [assumption|].
  replace (List.length (metricsMap r))
    with (List.length (keys (metricsMap r)))
    by (unfold keys; apply length_map).
  change 22%nat with (List.length allKnownMetrics).
  apply NoDup_incl_length; [assumption|].
  intros k Hk. apply (@validated_known _ V). apply In_keys_has, Hk.
Qed.

Lemma validate_accepts_only_valid_witness :
  exists r,
    validate vector_temporal = OK r /\
    startsWith (js "CVSS:") vector_temporal = true /\
    (versionStr r = Some (js "3.0") \/ versionStr r = Some (js "3.1")) /\
    (forall b, In b baseMetrics ->
               exists v, get b (metricsMap r) = Some v /\
                         In v (allowedValues b)) /\
    (forall k v, get k (metricsMap r) = Some v ->
                 In k allKnownMetrics /\ In v (allowedValues k)) /\
    NoDup (keys (metricsMap r)) /\
    (List.length (metricsMap r) <= 22)%nat.
Proof.
  eexists.
  assert (V : validate vector_temporal = OK _) by (vm_compute; reflexivity).
  split; [exact V | apply (validate_accepts_only_valid _ V)].
Defined.

(** The two flags of an accepted vector: [isTemporal] says that some
    Temporal metric is a key of the map, [isEnvironmental] that some
    Environmental metric is. *)
Theorem validate_flags (cvssStr : jsstring) (r : ValidationResult) :
  validate cvssStr = OK r ->
  (isTemporal r = true <->
   exists t, In t temporalMetrics /\ has t (metricsMap r) = true) /\
  (isEnvironmental r = true <->
   exists t, In t environmentalMetrics /\ has t (metricsMap r) = true).
Proof.
  intros H.
  assert (F : forall l,
             existsb (fun metric => arr_includes metric l)
               (keys (metricsMap r)) = true <->
             exists t, In t l /\ has t (metricsMap r) = true).
  { intros l. rewrite existsb_exists. split.
    - intros (k & Hk & Hl). exists k.
      split; [apply arr_includes_In, Hl | apply In_keys_has, Hk].
    - intros (t & Ht & Hh). exists t.
      split; [apply has_In_keys, Hh | apply arr_includes_In, Ht]. }
  unfold validate in H.
  destruct (startsWith (js "CVSS:") cvssStr); cbn [negb] in H;
    [|discriminate].
  destruct (validateVersion _) as [[]|]; cbn [bind] in H; [|discriminate].
  destruct (truthy (parseVector cvssStr)); cbn [negb bind] in H;
    [|discriminate].
  destruct (validateVector _) as [[]|]; cbn [bind] in H; [|discriminate].
  destruct (parseMetricsAsMap cvssStr) as [m|]; cbn [bind] in H;
    [|discriminate].
  destruct (checkMandatoryMetrics _ _) as [[]|]; cbn [bind] in H;
    [|discriminate].
  destruct (checkUnknownMetrics _ _) as [[]|]; cbn [bind] in H;
    [|discriminate].
  destruct (checkMetricsValues _ _ _) as [[]|]; cbn [bind] in H;
    [|discriminate].
  injection H as <-.
  split; [exact (F temporalMetrics) | exact (F environmentalMetrics)].
Qed.

Lemma validate_flags_witness :
  exists r,
    validate vector_temporal = OK r /\
    (isTemporal r = true <->
     exists t, In t temporalMetrics /\ has t (metricsMap r) = true) /\
    (isEnvironmental r = true <->
     exists t, In t environmentalMetrics /\ has t (metricsMap r) = true).
Proof.
  eexists.
  assert (V : validate vector_temporal = OK _) by (vm_compute; reflexivity).
  split; [exact V | apply (validate_flags _ V)].
Defined.

(* ----------------------------------------------------------------- *)
(** ** Rounding up *)

(** [roundUp] is monotone. *)
Theorem roundUp_monotone (x y : Q) : x <= y -> roundUp x <= roundUp y.
Proof. apply roundUp_mono. Qed.

Lemma roundUp_monotone_witness : roundUp 4.02 <= roundUp 4.1.
Proof. apply roundUp_monotone. vm_compute. discriminate. Defined.

Lemma tenths_bounds (i : Z) :
  (i <= 10000 * tenths i /\ 10000 * tenths i < i + 10000)%Z.
Proof.
  unfold tenths. destruct (Z.rem i 10000 =? 0)%Z eqn:E.
  - apply Z.eqb_eq in E. apply Z.rem_mod_eq_0 in E; [|lia].
    Z.div_mod_to_equations. lia.
  - apply Z.eqb_neq in E. rewrite Z.rem_mod_eq_0 in E by lia.
    Z.div_mod_to_equations. lia.
Qed.

(** [roundUp] returns more than its argument less 0.000005, and less than
    its argument plus 0.100005: it rounds the argument to five decimals
    first, so that it can return less than the argument. *)
Theorem roundUp_near (x : Q) :
  x - 0.000005 < roundUp x /\ roundUp x < x + 0.100005.
Proof.
  rewrite roundUp_tenths. unfold Math_round.
  set (i := Qfloor (x * 100000 + 0.5)).
  pose proof (Qfloor_le (x * 100000 + 0.5)) as L.
  pose proof (Qlt_floor (x * 100000 + 0.5)) as U.
  fold i in L, U. rewrite inject_Z_plus in U.
  destruct (tenths_bounds i) as [T1 T2].
  rewrite Zle_Qle, inject_Z_mult in T1.
  rewrite Zlt_Qlt, inject_Z_mult, inject_Z_plus in T2.
  change (inject_Z 10000) with 10000 in *.
  change (inject_Z 1) with 1 in *.
  undiv. split; lra.
Qed.

(** The numbers that [roundUp] leaves unchanged are the integer multiples
    of one tenth. *)
Theorem roundUp_fixes_exactly_tenths (q : Q) : roundUp q == q <-> is_tenth q.
Proof.
  split.
  - intros H. destruct (roundUp_is_tenth q) as [k Hk].
    exists k. rewrite <- H. exact Hk.
  - apply roundUp_fixes_tenth.
Qed.

(* ----------------------------------------------------------------- *)
(** ** Default population of the Temporal metrics *)

Lemma populateTemporalMetricDefaults_present (m : MetricsMap) :
  (forall t, In t temporalMetrics -> has t m = true) ->
  populateTemporalMetricDefaults m = m.
Proof.
  intros H. unfold populateTemporalMetricDefaults, temporalMetrics.
  cbn [fold_left].
  rewrite (H TemporalMetric.EXPLOIT_CODE_MATURITY) by (vm_compute; tauto).
  cbn [negb].
  rewrite (H TemporalMetric.REMEDIATION_LEVEL) by (vm_compute; tauto).
  cbn [negb].
  rewrite (H TemporalMetric.REPORT_CONFIDENCE) by (vm_compute; tauto).
  reflexivity.
Qed.

(** [populateTemporalMetricDefaults] gives the value X to the Temporal
    metrics that are absent and changes no entry that is there; after it the
    three Temporal metrics are present, and a second run changes nothing. *)
Theorem populateTemporalMetricDefaults_spec (m : MetricsMap) :
  (forall k, get k (populateTemporalMetricDefaults m) =
             match get k m with
             | Some v => Some v
             | None =>
                 if arr_includes k temporalMetrics then Some (js "X")
                 else None
             end) /\
  (forall t, In t temporalMetrics ->
             has t (populateTemporalMetricDefaults m) = true) /\
  populateTemporalMetricDefaults (populateTemporalMetricDefaults m)
  = populateTemporalMetricDefaults m.
Proof.
  assert (P : forall t, In t temporalMetrics ->
                        has t (populateTemporalMetricDefaults m) = true).
  { intros t Ht. apply has_get.
    rewrite get_populateTemporalMetricDefaults.
    apply arr_includes_In in Ht. rewrite Ht.
    destruct (get t m); eauto. }
  split; [apply get_populateTemporalMetricDefaults|].
  split; [exact P|].
  apply populateTemporalMetricDefaults_present, P.
Qed.

(* ----------------------------------------------------------------- *)
(** ** The three scores of an accepted vector *)

(** For every accepted vector, [calculateBaseScore] and
    [calculateTemporalScore] return a multiple of one tenth between 0 and
    10. *)
Theorem Base_and_Temporal_scores_in_range (cvssStr : jsstring)
  (r : ValidationResult) :
  validate cvssStr = OK r ->
  exists b t,
    calculateBaseScore cvssStr = OK b /\
    calculateTemporalScore cvssStr = OK t /\
    is_score b /\ is_score t.
Proof.
  intros H.
  destruct (calculateTemporalScore_OK _ H) as (t & b & Ht & Hb & St & Sb & _).
  exists b, t. auto.
Qed.

Lemma Base_and_Temporal_scores_in_range_witness :
  exists b t,
    calculateBaseScore vector_temporal = OK b /\
    calculateTemporalScore vector_temporal = OK t /\
    is_score b /\ is_score t.
Proof.
  eapply Base_and_Temporal_scores_in_range. vm_compute. reflexivity.
Defined.

(** For every accepted vector in which CR, IR and AR are present with
    values other than X, [calculateEnvironmentalScore] returns a multiple of
    one tenth between 0 and 10. *)
Theorem Environmental_score_in_range (cvssStr : jsstring)
  (r : ValidationResult) :
  validate cvssStr = OK r ->
  unset EnvironmentalMetric.CONFIDENTIALITY_REQUIREMENT (metricsMap r)
  = false ->
  unset EnvironmentalMetric.INTEGRITY_REQUIREMENT (metricsMap r) = false ->
  unset EnvironmentalMetric.AVAILABILITY_REQUIREMENT (metricsMap r) = false ->
  exists e, calculateEnvironmentalScore cvssStr = OK e /\ is_score e.
Proof. apply calculateEnvironmentalScore_OK. Qed.

Lemma Environmental_score_in_range_witness :
  exists e,
    calculateEnvironmentalScore vector_environmental = OK e /\ is_score e.
Proof.
  eapply Environmental_score_in_range; vm_compute; reflexivity.
Defined.

(** The weight of a Temporal metric that is absent or has the value X is
    1. *)
Lemma temporal_weight_unset (m : MetricsMap) (t : jsstring) :
  In t temporalMetrics -> unset t m = true ->
  getMetricNumericValue t (populateTemporalMetricDefaults m) = OK 1.
Proof.
  intros Ht U.
  assert (G : get t (populateTemporalMetricDefaults m) = Some (js "X")).
  { rewrite get_populateTemporalMetricDefaults. unfold unset in U.
    destruct (get t m) as [v|].
    - apply jseqb_eq in U. subst v. reflexivity.
    - apply arr_includes_In in Ht. rewrite Ht. reflexivity. }
  apply getMetricNumericValue_table with (v := js "X");
    [exact G | for_each_member Ht | for_each_member Ht
    | for_each_member Ht].
Qed.

(** For every accepted vector whose three Temporal metrics are absent or
    have the value X, the Temporal score is the Base score. *)
Theorem Temporal_score_without_Temporal_metrics (cvssStr : jsstring)
  (r : ValidationResult) :
  validate cvssStr = OK r ->
  (forall t, In t temporalMetrics -> unset t (metricsMap r) = true) ->
  exists t b, calculateTemporalScore cvssStr = OK t /\
              calculateBaseScore cvssStr = OK b /\
              t == b.
Proof.
  intros H U.
  destruct (calculateBaseScore_OK _ H) as [b [Hb Sb]].
  exists (roundUp (b * 1 * 1 * 1)), b. split; [|split; [exact Hb|]].
  - unfold calculateTemporalScore, calculateTemporalResult.
    rewrite H. cbn [bind]. unfold calculateBaseScore in Hb.
    destruct (calculateBaseResult cvssStr) as [base|]; [|discriminate].
    cbn [bind] in Hb |- *. injection Hb as Hb.
    rewrite !temporal_weight_unset
      by (first [apply U; vm_compute; tauto | vm_compute; tauto]).
    cbn [bind score]. rewrite Hb. reflexivity.
  - assert (E : b * 1 * 1 * 1 == b) by ring.
    rewrite (roundUp_compat E). apply roundUp_fixes_tenth. apply Sb.
Qed.

Lemma Temporal_score_without_Temporal_metrics_witness :
  exists t b, calculateTemporalScore vector_changed = OK t /\
              calculateBaseScore vector_changed = OK b /\
              t == b.
Proof.
  eapply Temporal_score_without_Temporal_metrics.
  - vm_compute. reflexivity.
  - intros t Ht. vm_compute in Ht.
    repeat (destruct Ht as [<-|Ht]; [vm_compute; reflexivity|]).
    destruct Ht.
Defined.

(* ----------------------------------------------------------------- *)
(** ** The order of the metrics *)

Section SameEntries.
Variables m1 m2 : MetricsMap.
Hypothesis same : same_entries m1 m2.

Lemma has_same (k : jsstring) : has k m1 = has k m2.
Proof. unfold has. rewrite (same k). reflexivity. Qed.

Lemma get_is_same (k : jsstring) (v : string) : get_is k v m1 = get_is k v m2.
Proof. unfold get_is. rewrite (same k). reflexivity. Qed.

Lemma set_same_entries (k v : jsstring) :
  same_entries (set k v m1) (set k v m2).
Proof. intros k'. rewrite !get_set, (same k'). reflexivity. Qed.

Lemma getMetricNumericValue_same (metric : jsstring) :
  getMetricNumericValue metric m1 = getMetricNumericValue metric m2.
Proof.
  unfold getMetricNumericValue, getMetricValue.
  rewrite (same metric), (same BaseMetric.SCOPE),
    (same EnvironmentalMetric.MODIFIED_SCOPE).
  reflexivity.
Qed.

Lemma calculateIss_same : calculateIss m1 = calculateIss m2.
Proof. unfold calculateIss. rewrite !getMetricNumericValue_same. reflexivity. Qed.

Lemma calculateMiss_same : calculateMiss m1 = calculateMiss m2.
Proof.
  unfold calculateMiss. rewrite !getMetricNumericValue_same. reflexivity.
Qed.

Lemma calculateImpact_same (iss : Q) :
  calculateImpact m1 iss = calculateImpact m2 iss.
Proof. unfold calculateImpact. rewrite get_is_same. reflexivity. Qed.

Lemma calculateModifiedImpact_same (miss : Q) (v : option jsstring) :
  calculateModifiedImpact m1 miss v = calculateModifiedImpact m2 miss v.
Proof. unfold calculateModifiedImpact. rewrite get_is_same. reflexivity. Qed.

Lemma calculateExploitability_same :
  calculateExploitability m1 = calculateExploitability m2.
Proof.
  unfold calculateExploitability. rewrite !getMetricNumericValue_same.
  reflexivity.
Qed.

Lemma calculateModifiedExploitability_same :
  calculateModifiedExploitability m1 = calculateModifiedExploitability m2.
Proof.
  unfold calculateModifiedExploitability.
  rewrite !getMetricNumericValue_same. reflexivity.
Qed.

Lemma temporalProduct_same (inner : Q) :
  temporalProduct inner m1 = temporalProduct inner m2.
Proof.
  unfold temporalProduct. rewrite !getMetricNumericValue_same. reflexivity.
Qed.

Lemma populateTemporalMetricDefaults_same :
  same_entries (populateTemporalMetricDefaults m1)
    (populateTemporalMetricDefaults m2).
Proof.
  intros k. rewrite !get_populateTemporalMetricDefaults, (same k).
  reflexivity.
Qed.

End SameEntries.

Lemma populateEnvironmentalMetricDefault_same (m1 m2 : MetricsMap)
  (metric : jsstring) :
  same_entries m1 m2 ->
  match populateEnvironmentalMetricDefault m1 metric,
        populateEnvironmentalMetricDefault m2 metric with
  | OK a, OK b => same_entries a b
  | Error e1, Error e2 => e1 = e2
  | _, _ => False
  end.
Proof.
  intros S.
  assert (R : forall a b, same_entries a b ->
              match
                (if get_is metric "X" a
                 then match get metric modifiedMetricsMap with
                      | Some (c :: cs) =>
                          OK (set metric
                                (match get (c :: cs) a with
                                 | Some v => v
                                 | None => js "X"
                                 end) a)
                      | _ => Error (MissingModifiedMetric metric)
                      end
                 else OK a),
                (if get_is metric "X" b
                 then match get metric modifiedMetricsMap with
                      | Some (c :: cs) =>
                          OK (set metric
                                (match get (c :: cs) b with
                                 | Some v => v
                                 | None => js "X"
                                 end) b)
                      | _ => Error (MissingModifiedMetric metric)
                      end
                 else OK b)
              with
              | OK a', OK b' => same_entries a' b'
              | Error e1, Error e2 => e1 = e2
              | _, _ => False
              end).
  { intros a b Sab. rewrite (get_is_same Sab).
    destruct (get_is metric "X" b); [|exact Sab].
    destruct (get metric modifiedMetricsMap) as [[|c cs]|]; try reflexivity.
    rewrite (Sab (c :: cs)). apply set_same_entries, Sab. }
  unfold populateEnvironmentalMetricDefault. rewrite (has_same S).
  destruct (has metric m2); cbn [negb]; apply R;
    [exact S | apply set_same_entries, S].
Qed.

Lemma populateEnvironmentalMetricDefaults_same (m1 m2 : MetricsMap) :
  same_entries m1 m2 ->
  match populateEnvironmentalMetricDefaults m1,
        populateEnvironmentalMetricDefaults m2 with
  | OK a, OK b => same_entries a b
  | Error e1, Error e2 => e1 = e2
  | _, _ => False
  end.
Proof.
  unfold populateEnvironmentalMetricDefaults.
  generalize environmentalMetrics as l. intros l. revert m1 m2.
  induction l as [|metric l IH]; intros m1 m2 S; cbn [reduceM].
  - exact S.
  - pose proof (@populateEnvironmentalMetricDefault_same _ _ metric S) as P.
    destruct (populateEnvironmentalMetricDefault m1 metric) as [a|e1];
      destruct (populateEnvironmentalMetricDefault m2 metric) as [b|e2];
      try contradiction; cbn [bind].
    + apply IH, P.
    + exact P.
Qed.

(** The three scores depend on the entries of the validated map and on the
    version only, not on the order in which the vector lists its
    metrics. *)
Theorem scores_depend_on_entries_only (s1 s2 : jsstring)
  (r1 r2 : ValidationResult) :
  validate s1 = OK r1 -> validate s2 = OK r2 ->
  same_entries (metricsMap r1) (metricsMap r2) ->
  versionStr r1 = versionStr r2 ->
  calculateBaseScore s1 = calculateBaseScore s2 /\
  calculateTemporalScore s1 = calculateTemporalScore s2 /\
  calculateEnvironmentalScore s1 = calculateEnvironmentalScore s2.
Proof.
  intros V1 V2 S Ver.
  assert (B : match calculateBaseResult s1, calculateBaseResult s2 with
              | OK a, OK b => score a = score b
              | Error e1, Error e2 => e1 = e2
              | _, _ => False
              end).
  { unfold calculateBaseResult. rewrite V1, V2. cbn [bind].
    rewrite (calculateIss_same S), (calculateExploitability_same S).
    destruct (calculateIss (metricsMap r2)) as [iss|]; cbn [bind];
      [|reflexivity].
    destruct (calculateExploitability (metricsMap r2)) as [e|]; cbn [bind];
      [|reflexivity].
    cbn [score]. rewrite (calculateImpact_same S), (get_is_same S).
    reflexivity. }
  split; [|split].
  - unfold calculateBaseScore.
    destruct (calculateBaseResult s1); destruct (calculateBaseResult s2);
      try contradiction; cbn [bind]; congruence.
  - unfold calculateTemporalScore, calculateTemporalResult.
    rewrite V1, V2. cbn [bind].
    pose proof (populateTemporalMetricDefaults_same S) as ST.
    destruct (calculateBaseResult s1) as [a|];
      destruct (calculateBaseResult s2) as [b|];
      try contradiction; cbn [bind]; [|congruence].
    rewrite !(getMetricNumericValue_same ST), B.
    repeat (destruct (getMetricNumericValue _ _); cbn [bind];
            [|reflexivity]).
    reflexivity.
  - unfold calculateEnvironmentalScore, calculateEnvironmentalResult.
    rewrite V1, V2. cbn [bind]. rewrite Ver.
    pose proof (populateEnvironmentalMetricDefaults_same
                  (populateTemporalMetricDefaults_same S)) as SE.
    destruct (populateEnvironmentalMetricDefaults
                (populateTemporalMetricDefaults (metricsMap r1))) as [a|];
      destruct (populateEnvironmentalMetricDefaults
                  (populateTemporalMetricDefaults (metricsMap r2))) as [b|];
      try contradiction; cbn [bind]; [|congruence].
    rewrite (calculateMiss_same SE).
    destruct (calculateMiss b) as [miss|]; cbn [bind]; [|reflexivity].
    destruct (truthy (versionStr r2)); cbn [negb]; [|reflexivity].
    rewrite (calculateModifiedExploitability_same SE).
    destruct (calculateModifiedExploitability b) as [e|]; cbn [bind];
      [|reflexivity].
    rewrite (calculateModifiedImpact_same SE), (get_is_same SE).
    destruct (nonpositive _); cbn [bind score]; [reflexivity|].
    destruct (get_is _ _ b); rewrite (temporalProduct_same SE);
      destruct (temporalProduct _ b); reflexivity.
Qed.

Lemma get_In_NoDup (m : MetricsMap) (k v : jsstring) :
  NoDup (keys m) -> In (k, v) m -> get k m = Some v.
Proof.
  unfold keys. induction m as [|[k0 v0] m IH]; cbn [List.map fst get];
    [intros _ []|].
  intros ND [E|H].
  - injection E as -> ->. rewrite jseqb_refl. reflexivity.
  - inversion ND as [|? ? Hn ND']; subst.
    destruct (jseqb k k0) eqn:K.
    + apply jseqb_eq in K. subst k0. exfalso. apply Hn.
      apply (in_map fst) in H. exact H.
    + apply IH; assumption.
Qed.

Lemma Permutation_same_entries (m1 m2 : MetricsMap) :
  NoDup (keys m1) -> Permutation m1 m2 -> same_entries m1 m2.
Proof.
  intros ND1 P.
  assert (ND2 : NoDup (keys m2)).
  { unfold keys in *. eapply Permutation_NoDup; [|exact ND1].
    apply Permutation_map, P. }
  intros k. destruct (get k m1) as [v|] eqn:G1.
  - symmetry. apply get_In_NoDup; [assumption|].
    apply (Permutation_in _ P). apply get_In, G1.
  - destruct (get k m2) as [v|] eqn:G2; [|reflexivity].
    apply get_In in G2. apply (Permutation_in _ (Permutation_sym P)) in G2.
    apply (@get_In_NoDup _ _ _ ND1) in G2. congruence.
Qed.

(** The segments that [parseMetrics] accepts, as pairs. *)
Lemma parseMetrics_OK (vectorStr : jsstring) (metrics : list KeyValue) :
  parseMetrics vectorStr = OK metrics ->
  metrics = List.map key_value_of (split SLASH vectorStr).
Proof.
  unfold parseMetrics.
  rewrite (@mapM_find _ _ _ _ _ _ _ parseMetric_spec).
  destruct (find _ _); [discriminate|]. intros [= <-]. reflexivity.
Qed.

Lemma parsed_Permutation (s1 s2 : jsstring) (m1 m2 : MetricsMap) :
  parseMetricsAsMap s1 = OK m1 -> parseMetricsAsMap s2 = OK m2 ->
  Permutation (split SLASH (vectorBody s1)) (split SLASH (vectorBody s2)) ->
  same_entries m1 m2.
Proof.
  intros P1 P2 P.
  destruct (parseMetricsAsMap_OK _ P1) as (ms1 & E1 & -> & ND1 & _).
  destruct (parseMetricsAsMap_OK _ P2) as (ms2 & E2 & -> & _).
  apply parseMetrics_OK in E1, E2. subst ms1 ms2.
  apply Permutation_same_entries; [assumption|].
  apply Permutation_map, Permutation_map, P.
Qed.

(** Two vectors whose bodies have the same segments in a different order
    are parsed into maps with the same entries. *)
Theorem parseMetricsAsMap_order (s1 s2 : jsstring) (m1 m2 : MetricsMap) :
  parseMetricsAsMap s1 = OK m1 -> parseMetricsAsMap s2 = OK m2 ->
  Permutation (split SLASH (vectorBody s1)) (split SLASH (vectorBody s2)) ->
  same_entries m1 m2.
Proof. apply parsed_Permutation. Qed.

Lemma vector_reversed_segments :
  Permutation (split SLASH (vectorBody vector_environmental))
    (split SLASH (vectorBody vector_reversed)).
Proof.
  exact (Permutation_rev (split SLASH (vectorBody vector_environmental))).
Defined.

Lemma parseMetricsAsMap_order_witness :
  exists m1 m2,
    parseMetricsAsMap vector_environmental = OK m1 /\
    parseMetricsAsMap vector_reversed = OK m2 /\
    same_entries m1 m2.
Proof.
  eexists. eexists.
  assert (P1 : parseMetricsAsMap vector_environmental = OK _)
    by (vm_compute; reflexivity).
  assert (P2 : parseMetricsAsMap vector_reversed = OK _)
    by (vm_compute; reflexivity).
  split; [exact P1|]. split; [exact P2|].
  exact (@parseMetricsAsMap_order _ _ _ _ P1 P2 vector_reversed_segments).
Defined.

Lemma scores_depend_on_entries_only_witness :
  calculateBaseScore vector_environmental
  = calculateBaseScore vector_reversed /\
  calculateTemporalScore vector_environmental
  = calculateTemporalScore vector_reversed /\
  calculateEnvironmentalScore vector_environmental
  = calculateEnvironmentalScore vector_reversed.
Proof.
  assert (V1 : validate vector_environmental = OK _)
    by (vm_compute; reflexivity).
  assert (V2 : validate vector_reversed = OK _)
    by (vm_compute; reflexivity).
  apply (@scores_depend_on_entries_only _ _ _ _ V1 V2); [|reflexivity].
  apply (@parsed_Permutation vector_environmental vector_reversed);
    [vm_compute; reflexivity | vm_compute; reflexivity
    | exact vector_reversed_segments].
Defined.
